(** * Energia: tariff cost / VAT calculation and offer ranking

    A shallow embedding of the calculation core of [src/App.tsx]
    ([calculateWithVat], [currentCalculated], [comparison],
    [multiComparisonResults]), of the batch loader
    [handleAddMultiSimulations] and of the handlers around them, with the
    properties the specification states about them.

    Numbers.  A TypeScript [number] is modelled by the type [number] below:
    a finite value is an exact rational, and the three special values
    [Infinity], [-Infinity] and [NaN] follow the rules JavaScript gives them
    (a division by zero, [0 * Infinity], [Infinity - Infinity], comparisons
    with [NaN], ...).  Arithmetic on finite values is exact: the rounding of
    binary64, its overflow and signed zeros are not part of [number].
    Where the rounding decides, [calculateWithVat] is embedded a second
    time on binary64 itself (module [Binary64], over primitive floats). *)

From Stdlib Require Import QArith Qminmax Lqa Arith Lia Bool List String Ascii.
From Stdlib Require Import Sorting Permutation Morphisms Setoid.
From Stdlib Require PrimFloat.
From AAC_tactics Require Import AAC.
Import ListNotations.

(** ** JavaScript numbers *)

Inductive number : Type :=
| Num (q : Q)
| Infinity
| NegInfinity
| NaN.

Declare Scope js_scope.
Delimit Scope js_scope with js.
Bind Scope js_scope with number.

Module JS.

(** The infinity a non-zero finite factor [a] turns [Infinity] into;
    [0 * Infinity] is [NaN]. *)
Definition signed_infinity (a : Q) (positive : bool) : number :=
  match a ?= 0 with
  | Eq => NaN
  | Gt => if positive then Infinity else NegInfinity
  | Lt => if positive then NegInfinity else Infinity
  end.

Definition neg (x : number) : number :=
  match x with
  | Num a => Num (- a)
  | Infinity => NegInfinity
  | NegInfinity => Infinity
  | NaN => NaN
  end.

(** [x + y] *)
Definition add (x y : number) : number :=
  match x, y with
  | NaN, _ | _, NaN => NaN
  | Num a, Num b => Num (a + b)
  | Infinity, NegInfinity | NegInfinity, Infinity => NaN
  | Infinity, _ | _, Infinity => Infinity
  | NegInfinity, _ | _, NegInfinity => NegInfinity
  end.

(** [x - y] *)
Definition sub (x y : number) : number := add x (neg y).

(** [x * y] *)
Definition mul (x y : number) : number :=
  match x, y with
  | NaN, _ | _, NaN => NaN
  | Num a, Num b => Num (a * b)
  | Num a, Infinity | Infinity, Num a => signed_infinity a true
  | Num a, NegInfinity | NegInfinity, Num a => signed_infinity a false
  | Infinity, Infinity | NegInfinity, NegInfinity => Infinity
  | Infinity, NegInfinity | NegInfinity, Infinity => NegInfinity
  end.

(** [x / y]: a finite value divided by zero is an infinity of its sign,
    [0 / 0] is [NaN]. *)
Definition div (x y : number) : number :=
  match x, y with
  | NaN, _ | _, NaN => NaN
  | Num a, Num b =>
      if Qeq_bool b 0 then signed_infinity a true else Num (a / b)
  | Num _, Infinity | Num _, NegInfinity => Num 0
  | Infinity, Num b => if Qle_bool 0 b then Infinity else NegInfinity
  | NegInfinity, Num b => if Qle_bool 0 b then NegInfinity else Infinity
  | Infinity, Infinity | Infinity, NegInfinity
  | NegInfinity, Infinity | NegInfinity, NegInfinity => NaN
  end.

(** [x <= y]; false when either side is [NaN]. *)
Definition leb (x y : number) : bool :=
  match x, y with
  | NaN, _ | _, NaN => false
  | Num a, Num b => Qle_bool a b
  | NegInfinity, _ | _, Infinity => true
  | Infinity, _ | _, NegInfinity => false
  end.

(** [x < y]; false when either side is [NaN]. *)
Definition ltb (x y : number) : bool :=
  match x, y with
  | NaN, _ | _, NaN => false
  | Num a, Num b => negb (Qle_bool b a)
  | Infinity, _ | _, NegInfinity => false
  | NegInfinity, _ | _, Infinity => true
  end.

(** [x === y] on numbers; [NaN === NaN] is false. *)
Definition strict_eq (x y : number) : bool :=
  match x, y with
  | Num a, Num b => Qeq_bool a b
  | Infinity, Infinity | NegInfinity, NegInfinity => true
  | _, _ => false
  end.

(** [Math.min(x, y)] and [Math.max(x, y)]: [NaN] when an argument is. *)
Definition Math_min (x y : number) : number :=
  match x, y with
  | NaN, _ | _, NaN => NaN
  | _, _ => if leb x y then x else y
  end.

Definition Math_max (x y : number) : number :=
  match x, y with
  | NaN, _ | _, NaN => NaN
  | _, _ => if leb x y then y else x
  end.

(** [Number.isFinite(x)] *)
Definition isFinite (x : number) : bool :=
  match x with Num _ => true | _ => false end.

(** Truthiness of a number: [0] and [NaN] are falsy. *)
Definition truthy (x : number) : bool :=
  match x with
  | Num a => negb (Qeq_bool a 0)
  | Infinity | NegInfinity => true
  | NaN => false
  end.

(** [x || d] for an optional numeric field [x]: [undefined] and falsy
    numbers give [d]. *)
Definition or_else (x : option number) (d : number) : number :=
  match x with
  | Some v => if truthy v then v else d
  | None => d
  end.

End JS.

Infix "+" := JS.add : js_scope.
Infix "-" := JS.sub : js_scope.
Infix "*" := JS.mul : js_scope.
Infix "/" := JS.div : js_scope.
Infix "<=?" := JS.leb (at level 70, no associativity) : js_scope.
Infix "<?" := JS.ltb (at level 70, no associativity) : js_scope.
Infix "===" := JS.strict_eq (at level 70, no associativity) : js_scope.

(** Two numbers denote the same value.  On finite values this is equality
    of rationals ([3 # 2] and [6 # 4] are the same number). *)
Definition same (x y : number) : Prop :=
  match x, y with
  | Num a, Num b => (a == b)%Q
  | Infinity, Infinity | NegInfinity, NegInfinity | NaN, NaN => True
  | _, _ => False
  end.

Infix "=~" := same (at level 70, no associativity) : js_scope.

Local Open Scope js_scope.

(** ** Data model ([src/types.ts]) *)

Record BillData : Type := {
  monthlyConsumptionKwh : number;
  contractedPowerKva : number;
  audiovisualTax : number;
  dgegTax : number;
  ieceTax : number;
  socialTariff : number;
  totalAmount : number;
  billingPeriodDays : number;
  currentPowerPricePerDay : option number;
  currentEnergyPricePerKwh : option number
}.

Record NewOfferData : Type := {
  supplierName : option string;
  powerPricePerDay : number;
  energyPricePerKwh : number
}.

Module SavedSimulation.
Record t : Type := {
  version : string;
  timestamp : string;
  billData : BillData;
  newOffer : NewOfferData
}.
End SavedSimulation.

(** The [taxes] argument of [calculateWithVat]. *)
Record Taxes : Type := {
  cav : number;
  dgeg : number;
  iec : number;
  social : number
}.

(** A [{ base, vat, total }] triple of one cost category. *)
Module Part.
Record t : Type := { base : number; vat : number; total : number }.
End Part.

Module Components.
Record t : Type := { energy : Part.t; power : Part.t; taxes : Part.t }.
End Components.

(** The object [calculateWithVat] returns. *)
Record CostBreakdown : Type := {
  base : number;
  vat : number;
  total : number;
  components : Components.t
}.

(** ** VAT calculation ([calculateWithVat]) *)

Definition IVA_LOW : number := Num 0.06.
Definition IVA_NORMAL : number := Num 0.23.

Definition powerVatRate (powerKva : number) : number :=
  if powerKva <=? Num 6.9 then IVA_LOW else IVA_NORMAL.

(** The locals of the branch [powerKva <= 6.9], as functions of what they
    are computed from. *)
Definition tier1Cap : number := Num 100.

Definition tier1Kwh (consumption : number) : number :=
  JS.Math_min consumption tier1Cap.

Definition tier2Kwh (consumption : number) : number :=
  JS.Math_max (Num 0) (consumption - tier1Cap).

(** [tier1Cost * IVA_LOW] and [tier2Cost * IVA_NORMAL], the two summands of
    [energyVat], with [tier1Cost = tier1Kwh * energyPrice] and
    [tier2Cost = tier2Kwh * energyPrice]. *)
Definition tier1Vat (consumption energyPrice : number) : number :=
  (tier1Kwh consumption * energyPrice) * IVA_LOW.

Definition tier2Vat (consumption energyPrice : number) : number :=
  (tier2Kwh consumption * energyPrice) * IVA_NORMAL.

Definition calculateWithVat
    (consumption powerKva days powerPrice energyPrice : number)
    (taxes : Taxes) : CostBreakdown :=
  let powerBaseCost := days * powerPrice in
  let powerVat := powerBaseCost * powerVatRate powerKva in
  let energyBaseCost := consumption * energyPrice in
  let energyVat :=
    if powerKva <=? Num 6.9
    then tier1Vat consumption energyPrice + tier2Vat consumption energyPrice
    else energyBaseCost * IVA_NORMAL in
  let cavVat := cav taxes * IVA_LOW in
  let dgegVat := dgeg taxes * IVA_NORMAL in
  let iecVat := iec taxes * IVA_NORMAL in
  let socialVat := Num 0 in
  let totalBase :=
    powerBaseCost + energyBaseCost + cav taxes + dgeg taxes + iec taxes
    + social taxes in
  let totalVat :=
    powerVat + energyVat + cavVat + dgegVat + iecVat + socialVat in
  let totalWithVat := totalBase + totalVat in
  {| base := totalBase;
     vat := totalVat;
     total := totalWithVat;
     components :=
       {| Components.energy :=
            {| Part.base := energyBaseCost;
               Part.vat := energyVat;
               Part.total := energyBaseCost + energyVat |};
          Components.power :=
            {| Part.base := powerBaseCost;
               Part.vat := powerVat;
               Part.total := powerBaseCost + powerVat |};
          Components.taxes :=
            {| Part.base :=
                 cav taxes + dgeg taxes + iec taxes + social taxes;
               Part.vat := cavVat + dgegVat + iecVat + socialVat;
               Part.total :=
                 (cav taxes + dgeg taxes + iec taxes + social taxes)
                 + (cavVat + dgegVat + iecVat + socialVat) |} |} |}.

(** ** Current bill and single comparison ([currentCalculated], [comparison]) *)

Definition billTaxes (billData : BillData) : Taxes :=
  {| cav := audiovisualTax billData;
     dgeg := dgegTax billData;
     iec := ieceTax billData;
     social := socialTariff billData |}.

Definition currentCalculated (billData : BillData) : CostBreakdown :=
  calculateWithVat
    (monthlyConsumptionKwh billData)
    (contractedPowerKva billData)
    (billingPeriodDays billData)
    (JS.or_else (currentPowerPricePerDay billData) (Num 0))
    (JS.or_else (currentEnergyPricePerKwh billData) (Num 0))
    (billTaxes billData).

(** A [{ current, new }] pair of [ComparisonResult.details]. *)
Module Pair.
Record t : Type := { current : number; new : number }.
End Pair.

Module Details.
Record t : Type := { energyCost : Pair.t; powerCost : Pair.t; taxes : Pair.t }.
End Details.

Record ComparisonResult : Type := {
  currentTotal : number;
  newTotal : number;
  currentBase : number;
  newBase : number;
  difference : number;
  isCheaper : bool;
  yearlySavings : number;
  details : Details.t
}.

(** [null] is [None]. *)
Definition comparison (billData : BillData) (newOffer : NewOfferData)
  : option ComparisonResult :=
  if monthlyConsumptionKwh billData === Num 0 then None
  else
    let current := currentCalculated billData in
    let newOfferCalc :=
      calculateWithVat
        (monthlyConsumptionKwh billData)
        (contractedPowerKva billData)
        (billingPeriodDays billData)
        (powerPricePerDay newOffer)
        (energyPricePerKwh newOffer)
        (billTaxes billData) in
    let difference := total current - total newOfferCalc in
    Some
      {| currentTotal := total current;
         newTotal := total newOfferCalc;
         currentBase := base current;
         newBase := base newOfferCalc;
         difference := difference;
         isCheaper := total newOfferCalc <? total current;
         yearlySavings := difference * (Num 365 / billingPeriodDays billData);
         details :=
           {| Details.energyCost :=
                {| Pair.current := Part.total (Components.energy (components current));
                   Pair.new := Part.total (Components.energy (components newOfferCalc)) |};
              Details.powerCost :=
                {| Pair.current := Part.total (Components.power (components current));
                   Pair.new := Part.total (Components.power (components newOfferCalc)) |};
              Details.taxes :=
                {| Pair.current := Part.total (Components.taxes (components current));
                   Pair.new := Part.total (Components.taxes (components newOfferCalc)) |} |} |}.

(** ** Ranking of saved simulations ([multiComparisonResults]) *)

(** An element of the ranking: the saved simulation's own fields (the
    spread [...sim]) and the four computed ones. *)
Module Ranked.
Record t : Type := {
  version : string;
  timestamp : string;
  billData : BillData;
  newOffer : NewOfferData;
  originalIndex : nat;
  calculatedTotal : number;
  yearlySavings : number;
  isCheaper : bool
}.
End Ranked.

(** [array.map((x, index) => f(x, index))] *)
Fixpoint Array_map_from {A B : Type} (f : A -> nat -> B) (index : nat) (l : list A)
  : list B :=
  match l with
  | [] => []
  | x :: rest => f x index :: Array_map_from f (S index) rest
  end.

Definition Array_map {A B : Type} (f : A -> nat -> B) (l : list A) : list B :=
  Array_map_from f 0 l.

(** [array.sort(compareFn)].  ECMAScript leaves the algorithm open and
    requires the sort to be stable; the model is the stable insertion sort:
    an element moves behind [y] only when [compareFn(y, x) < 0]. *)
Fixpoint Array_insert {A : Type} (compareFn : A -> A -> number) (x : A) (l : list A)
  : list A :=
  match l with
  | [] => [x]
  | y :: rest =>
      if compareFn y x <? Num 0 then y :: Array_insert compareFn x rest
      else x :: y :: rest
  end.

Fixpoint Array_sort {A : Type} (compareFn : A -> A -> number) (l : list A) : list A :=
  match l with
  | [] => []
  | x :: rest => Array_insert compareFn x (Array_sort compareFn rest)
  end.

(** The callback of [multiSimulations.map]. *)
Definition rankOne (billData : BillData) (sim : SavedSimulation.t) (index : nat)
  : Ranked.t :=
  let calc :=
    calculateWithVat
      (monthlyConsumptionKwh billData)
      (contractedPowerKva billData)
      (billingPeriodDays billData)
      (powerPricePerDay (SavedSimulation.newOffer sim))
      (energyPricePerKwh (SavedSimulation.newOffer sim))
      (billTaxes billData) in
  let diff := total (currentCalculated billData) - total calc in
  let yearlySavings := diff * (Num 365 / billingPeriodDays billData) in
  {| Ranked.version := SavedSimulation.version sim;
     Ranked.timestamp := SavedSimulation.timestamp sim;
     Ranked.billData := SavedSimulation.billData sim;
     Ranked.newOffer := SavedSimulation.newOffer sim;
     Ranked.originalIndex := index;
     Ranked.calculatedTotal := total calc;
     Ranked.yearlySavings := yearlySavings;
     Ranked.isCheaper := total calc <? total (currentCalculated billData) |}.

Definition byCalculatedTotal (a b : Ranked.t) : number :=
  Ranked.calculatedTotal a - Ranked.calculatedTotal b.

Definition multiComparisonResults
    (billData : BillData) (multiSimulations : list SavedSimulation.t)
  : list Ranked.t :=
  if (monthlyConsumptionKwh billData === Num 0)
     || (List.length multiSimulations =? 0)%nat
  then []
  else
    let results := Array_map (rankOne billData) multiSimulations in
    Array_sort byCalculatedTotal results.

(** ** Batch loading of saved simulations ([handleAddMultiSimulations]) *)

(** A value [JSON.parse] returns.  An object keeps its properties in
    insertion order. *)
#[local] Set Warnings "-register-all".
Inductive json : Type :=
| JNull
| JBool (b : bool)
| JNumber (n : number)
| JString (s : string)
| JArray (items : list json)
| JObject (properties : list (string * json)).

(** What the reader hands to [onload] for one file, seen through
    [JSON.parse]: an empty text (a falsy [event.target.result]), a text on
    which [JSON.parse] throws, or a text that parses. *)
Inductive FileText : Type :=
| EmptyText
| Malformed
| Parses (value : json).

Fixpoint lookup (key : string) (properties : list (string * json)) : option json :=
  match properties with
  | [] => None
  | (k, v) :: rest => if String.eqb k key then Some v else lookup key rest
  end.

(** [value.key] for a key that is no built-in property: [None] when the
    read throws a TypeError (on [null]), [Some None] for [undefined]. *)
Definition getProperty (value : json) (key : string) : option (option json) :=
  match value with
  | JNull => None
  | JObject properties => Some (lookup key properties)
  | _ => Some None
  end.

(** Truthiness of a property read ([None] is [undefined]). *)
Definition truthy (v : option json) : bool :=
  match v with
  | None | Some JNull => false
  | Some (JBool b) => b
  | Some (JNumber n) => JS.truthy n
  | Some (JString s) => negb (String.eqb s EmptyString)
  | Some (JArray _) | Some (JObject _) => true
  end.

Fixpoint assign (key : string) (v : json) (properties : list (string * json))
  : list (string * json) :=
  match properties with
  | [] => [(key, v)]
  | (k, old) :: rest =>
      if String.eqb k key then (k, v) :: rest else (k, old) :: assign key v rest
  end.

(** [value.key = v] on an object. *)
Definition setProperty (value : json) (key : string) (v : json) : json :=
  match value with
  | JObject properties => JObject (assign key v properties)
  | _ => value
  end.

Inductive AnalysisStatus : Type := IDLE | ANALYZING | SUCCESS | ERROR.

(** The component's state.  The cast [as SavedSimulation] of the loader is
    unchecked, so the collection holds the parsed values themselves. *)
Record AppState : Type := {
  stBillData : BillData;
  stNewOffer : NewOfferData;
  stMultiSimulations : list json;
  stStatus : AnalysisStatus;
  stErrorMsg : option string
}.

(** [setMultiSimulations(prev => [...prev, ...newSims])] *)
Definition setMultiSimulations (newSims : list json) (app : AppState) : AppState :=
  {| stBillData := stBillData app;
     stNewOffer := stNewOffer app;
     stMultiSimulations := stMultiSimulations app ++ newSims;
     stStatus := stStatus app;
     stErrorMsg := stErrorMsg app |}.

(** The locals the [onload] callbacks share. *)
Record Batch : Type := { newSims : list json; processedCount : nat }.

(** One [reader.onload]: the text of the file whose read completed, and
    what [new Date().toISOString()] returns while the callback runs. *)
Record LoadEvent : Type := { text : FileText; now : string }.

(** The [try] block of [onload]: the value to push, if any.  A throw
    ([JSON.parse], or the read of [newOffer] on [null]) is caught and only
    logged to the console. *)
Definition accepted (event : LoadEvent) : option json :=
  match text event with
  | EmptyText | Malformed => None
  | Parses value =>
      match getProperty value "newOffer" with
      | None => None
      | Some offer =>
          if truthy offer then
            match getProperty value "timestamp" with
            | None => None
            | Some stamp =>
                Some (if truthy stamp then value
                      else setProperty value "timestamp" (JString (now event)))
            end
          else None
      end
  end.

(** One [reader.onload] of a batch of [filesLength] files. *)
Definition onload (filesLength : nat) (event : LoadEvent) (st : Batch * AppState)
  : Batch * AppState :=
  let '(batch, app) := st in
  let newSims' :=
    match accepted event with
    | Some value => newSims batch ++ [value]
    | None => newSims batch
    end in
  let processedCount' := S (processedCount batch) in
  ({| newSims := newSims'; processedCount := processedCount' |},
   if (processedCount' =? filesLength)%nat
   then setMultiSimulations newSims' app
   else app).

(** The handler when the read of every file ends with [onload]; [events]
    lists the [onload] calls, one per file, in the order the reads
    complete. *)
Definition handleAddMultiSimulations (events : list LoadEvent) (app : AppState)
  : AppState :=
  snd (fold_left (fun st event => onload (List.length events) event st) events
         ({| newSims := []; processedCount := 0 |}, app)).

(** How the read of one file ends: with [onload], or with an error.  The
    handler sets [reader.onload] and nothing else, so a read that fails
    runs no code of the handler and [processedCount] is not raised for
    it. *)
Inductive FileRead : Type :=
| Loads (event : LoadEvent)
| ReadFails.

(** The [onload] calls of a batch, in the order they run. *)
Definition loadEvents (reads : list FileRead) : list LoadEvent :=
  flat_map
    (fun read => match read with Loads event => [event] | ReadFails => [] end)
    reads.

(** The handler on a batch of [files.length = List.length reads] files, once
    every read has ended; [reads] lists the files in the order their reads
    end. *)
Definition handleAddMultiSimulationsOf (reads : list FileRead) (app : AppState)
  : AppState :=
  snd (fold_left (fun st event => onload (List.length reads) event st)
         (loadEvents reads)
         ({| newSims := []; processedCount := 0 |}, app)).

(** ** Definitions used to state the properties *)

(** The tier split as the specification words it: tier 1 is
    [min(consumption, 100)] and tier 2 is the remainder. *)
Definition spec_tier1 (consumption : Q) : Q := Qmin consumption 100.
Definition spec_tier2 (consumption : Q) : Q := (consumption - spec_tier1 consumption)%Q.

(** The worked example of the specification: 200 kWh, 4.6 kVA, 30 days,
    0.15 per day, 0.18 per kWh. *)
Definition exampleTaxes : Taxes :=
  {| cav := Num 1.5; dgeg := Num 0.10; iec := Num 6.0; social := Num 0 |}.

Definition exampleBreakdown : CostBreakdown :=
  calculateWithVat (Num 200) (Num 4.6) (Num 30) (Num 0.15) (Num 0.18) exampleTaxes.










(** Bills and offers on which the statements are tried. *)
Definition exampleBill : BillData :=
  {| monthlyConsumptionKwh := Num 200;
     contractedPowerKva := Num 4.6;
     audiovisualTax := Num 1.5;
     dgegTax := Num 0.10;
     ieceTax := Num 6.0;
     socialTariff := Num 0;
     totalAmount := Num 57.63;
     billingPeriodDays := Num 30;
     currentPowerPricePerDay := Some (Num 0.15);
     currentEnergyPricePerKwh := Some (Num 0.20) |}.

(** [exampleBill] with a billing period of zero days. *)
Definition zeroDaysBill : BillData :=
  {| monthlyConsumptionKwh := Num 200;
     contractedPowerKva := Num 4.6;
     audiovisualTax := Num 1.5;
     dgegTax := Num 0.10;
     ieceTax := Num 6.0;
     socialTariff := Num 0;
     totalAmount := Num 57.63;
     billingPeriodDays := Num 0;
     currentPowerPricePerDay := Some (Num 0.15);
     currentEnergyPricePerKwh := Some (Num 0.20) |}.

Definition offerAt (name : string) (energyPrice : Q) : NewOfferData :=
  {| supplierName := Some name;
     powerPricePerDay := Num 0.15;
     energyPricePerKwh := Num energyPrice |}.

(** A saved simulation whose own bill differs from [exampleBill]. *)
Definition savedAt (name : string) (energyPrice : Q) : SavedSimulation.t :=
  {| SavedSimulation.version := "1.0";
     SavedSimulation.timestamp := "2025-01-01T00:00:00.000Z";
     SavedSimulation.billData := zeroDaysBill;
     SavedSimulation.newOffer := offerAt name energyPrice |}.

Definition exampleSimulations : list SavedSimulation.t :=
  [savedAt "A" 0.18; savedAt "B" 0.16; savedAt "C" 0.18].

(** A saved simulation whose offer has no [powerPricePerDay]: the read of
    the missing property gives [undefined], which the arithmetic of
    [calculateWithVat] takes as [NaN]. *)
Definition noPowerPrice : SavedSimulation.t :=
  {| SavedSimulation.version := "1.0";
     SavedSimulation.timestamp := "2025-01-01T00:00:00.000Z";
     SavedSimulation.billData := zeroDaysBill;
     SavedSimulation.newOffer :=
       {| supplierName := Some "N"%string;
          powerPricePerDay := NaN;
          energyPricePerKwh := Num 0.18 |} |}.

Definition unpricedSimulations : list SavedSimulation.t :=
  [savedAt "A" 0.18; noPowerPrice; savedAt "B" 0.16].

(** The values a batch pushes, in the order the reads complete. *)
Definition pushed (events : list LoadEvent) : list json :=
  flat_map
    (fun event => match accepted event with Some value => [value] | None => [] end)
    events.

(** The state the component starts in. *)
Definition getInitialBillData : BillData :=
  {| monthlyConsumptionKwh := Num 0;
     contractedPowerKva := Num 0;
     audiovisualTax := Num 0;
     dgegTax := Num 0;
     ieceTax := Num 0;
     socialTariff := Num 0;
     totalAmount := Num 0;
     billingPeriodDays := Num 30;
     currentPowerPricePerDay := Some (Num 0);
     currentEnergyPricePerKwh := Some (Num 0) |}.

Definition getInitialOfferData : NewOfferData :=
  {| supplierName := Some EmptyString;
     powerPricePerDay := Num 0;
     energyPricePerKwh := Num 0 |}.

Definition initialState : AppState :=
  {| stBillData := getInitialBillData;
     stNewOffer := getInitialOfferData;
     stMultiSimulations := [];
     stStatus := IDLE;
     stErrorMsg := None |}.

(** Parsed documents on which the loader is tried: an offer and nothing
    else, and a [newOffer] property holding [null]. *)
Definition offerOnly : json :=
  JObject
    [("newOffer"%string,
      JObject [("powerPricePerDay"%string, JNumber (Num 0.15));
               ("energyPricePerKwh"%string, JNumber (Num 0.18))])].

Definition nullOffer : json := JObject [("newOffer"%string, JNull)].


(** The [onload] of a file read at noon of 1 June 2025. *)
Definition at_noon (content : FileText) : LoadEvent :=
  {| text := content; now := "2025-06-01T12:00:00.000Z" |}.

(** Taxes given by four finite amounts. *)
Definition finiteTaxes (cavTax dgegTax iecTax socialTax : Q) : Taxes :=
  {| cav := Num cavTax; dgeg := Num dgegTax; iec := Num iecTax;
     social := Num socialTax |}.


(** ** Removing and viewing a saved simulation ([removeMultiSimulation],
    [loadSimulationToMain]) *)




(** [setNewOffer(sim.newOffer)], on a row of the ranking. *)
Definition loadSimulationToMain (sim : Ranked.t) (app : AppState) : AppState :=
  {| stBillData := stBillData app;
     stNewOffer := Ranked.newOffer sim;
     stMultiSimulations := stMultiSimulations app;
     stStatus := stStatus app;
     stErrorMsg := stErrorMsg app |}.

(** ** Manual entry ([handleBillChange], [handleOfferChange]) *)

(** [keyof BillData] and [keyof NewOfferData]. *)
Inductive BillField : Type :=
| Key_monthlyConsumptionKwh
| Key_contractedPowerKva
| Key_audiovisualTax
| Key_dgegTax
| Key_ieceTax
| Key_socialTariff
| Key_totalAmount
| Key_billingPeriodDays
| Key_currentPowerPricePerDay
| Key_currentEnergyPricePerKwh.

Inductive OfferField : Type :=
| Key_supplierName
| Key_powerPricePerDay
| Key_energyPricePerKwh.

(** [{ ...prev, [field]: numValue }] *)
Definition setBillField (field : BillField) (numValue : number) (prev : BillData)
  : BillData :=
  {| monthlyConsumptionKwh :=
       match field with
       | Key_monthlyConsumptionKwh => numValue
       | _ => monthlyConsumptionKwh prev
       end;
     contractedPowerKva :=
       match field with
       | Key_contractedPowerKva => numValue
       | _ => contractedPowerKva prev
       end;
     audiovisualTax :=
       match field with Key_audiovisualTax => numValue | _ => audiovisualTax prev end;
     dgegTax :=
       match field with Key_dgegTax => numValue | _ => dgegTax prev end;
     ieceTax :=
       match field with Key_ieceTax => numValue | _ => ieceTax prev end;
     socialTariff :=
       match field with Key_socialTariff => numValue | _ => socialTariff prev end;
     totalAmount :=
       match field with Key_totalAmount => numValue | _ => totalAmount prev end;
     billingPeriodDays :=
       match field with
       | Key_billingPeriodDays => numValue
       | _ => billingPeriodDays prev
       end;
     currentPowerPricePerDay :=
       match field with
       | Key_currentPowerPricePerDay => Some numValue
       | _ => currentPowerPricePerDay prev
       end;
     currentEnergyPricePerKwh :=
       match field with
       | Key_currentEnergyPricePerKwh => Some numValue
       | _ => currentEnergyPricePerKwh prev
       end |}.

Definition setBillData (billData : BillData) (app : AppState) : AppState :=
  {| stBillData := billData;
     stNewOffer := stNewOffer app;
     stMultiSimulations := stMultiSimulations app;
     stStatus := stStatus app;
     stErrorMsg := stErrorMsg app |}.

Definition setNewOffer (newOffer : NewOfferData) (app : AppState) : AppState :=
  {| stBillData := stBillData app;
     stNewOffer := newOffer;
     stMultiSimulations := stMultiSimulations app;
     stStatus := stStatus app;
     stErrorMsg := stErrorMsg app |}.

Section ManualEntry.

(** [parseFloat], taken as given: [NaN] on a text that starts with no
    number. *)
Variable parseFloat : string -> number.

Definition handleBillChange (field : BillField) (value : string) (app : AppState)
  : AppState :=
  let numValue := JS.or_else (Some (parseFloat value)) (Num 0) in
  setBillData (setBillField field numValue (stBillData app)) app.

Definition handleOfferChange (field : OfferField) (value : string) (app : AppState)
  : AppState :=
  match field with
  | Key_supplierName =>
      setNewOffer
        {| supplierName := Some value;
           powerPricePerDay := powerPricePerDay (stNewOffer app);
           energyPricePerKwh := energyPricePerKwh (stNewOffer app) |}
        app
  | Key_powerPricePerDay =>
      let numValue := JS.or_else (Some (parseFloat value)) (Num 0) in
      setNewOffer
        {| supplierName := supplierName (stNewOffer app);
           powerPricePerDay := numValue;
           energyPricePerKwh := energyPricePerKwh (stNewOffer app) |}
        app
  | Key_energyPricePerKwh =>
      let numValue := JS.or_else (Some (parseFloat value)) (Num 0) in
      setNewOffer
        {| supplierName := supplierName (stNewOffer app);
           powerPricePerDay := powerPricePerDay (stNewOffer app);
           energyPricePerKwh := numValue |}
        app
  end.

(** What the user does in the two forms: the [onChange] of an input of the
    bill form or of the offer form. *)
Inductive FormEvent : Type :=
| BillInput (field : BillField) (value : string)
| OfferInput (field : OfferField) (value : string).

(** The bill form has an input for eight of the ten fields: none for
    [totalAmount], none for [billingPeriodDays]. *)
Definition hasInput (field : BillField) : bool :=
  match field with
  | Key_totalAmount | Key_billingPeriodDays => false
  | _ => true
  end.

Definition onChange (event : FormEvent) (app : AppState) : AppState :=
  match event with
  | BillInput field value => handleBillChange field value app
  | OfferInput field value => handleOfferChange field value app
  end.

Definition onChanges (events : list FormEvent) (app : AppState) : AppState :=
  fold_left (fun st event => onChange event st) events app.

End ManualEntry.

(** ** Reset and upload ([handleReset], [handleClearFile], [handleFileSelect]) *)

(** The component's state with the two pieces of it that only the layout
    reads. *)
Record Screen : Type := {
  state : AppState;
  isTaxesExpanded : bool;
  uploadKey : nat
}.

(** [confirmed] is what [window.confirm] returns. *)
Definition handleReset (confirmed : bool) (screen : Screen) : Screen :=
  if confirmed then
    {| state :=
         {| stBillData := getInitialBillData;
            stNewOffer := getInitialOfferData;
            stMultiSimulations := [];
            stStatus := IDLE;
            stErrorMsg := None |};
       isTaxesExpanded := false;
       uploadKey := uploadKey screen + 1 |}
  else screen.

Definition handleClearFile (screen : Screen) : Screen :=
  {| state :=
       {| stBillData := getInitialBillData;
          stNewOffer := stNewOffer (state screen);
          stMultiSimulations := stMultiSimulations (state screen);
          stStatus := IDLE;
          stErrorMsg := None |};
     isTaxesExpanded := false;
     uploadKey := uploadKey screen |}.

(** What [JSON.parse(atob(base64))] gives, read as a [SavedSimulation]: a
    throw (of [atob], of [JSON.parse], or of the property read on [null]),
    or a value with its [billData] and [newOffer], each [None] when missing
    or falsy.  The cast is unchecked: a part that is there is taken to have
    the fields of its type. *)
Inductive Decoded : Type :=
| DecodeThrows
| Document (billData : option BillData) (newOffer : option NewOfferData).

(** How [extractBillData] settles: with the bill, or with an error and its
    [message], if it has one. *)
Inductive Extraction : Type :=
| Extracted (data : BillData)
| Rejected (message : option string).

Definition invalidSimulation : string :=
  "O ficheiro JSON não é uma simulação válida.".

Definition analysisFailed : string :=
  "Não foi possível analisar o ficheiro. Por favor tente novamente.".

(** [err.message || fallback] *)
Definition messageOr (message : option string) (fallback : string) : string :=
  match message with
  | Some text => if String.eqb text EmptyString then fallback else text
  | None => fallback
  end.

Section Upload.

Variable decode : string -> Decoded.
Variable extractBillData : string -> string -> Extraction.

(** The three updates before the [try]. *)
Definition analysing (screen : Screen) : Screen :=
  {| state :=
       {| stBillData := stBillData (state screen);
          stNewOffer := stNewOffer (state screen);
          stMultiSimulations := stMultiSimulations (state screen);
          stStatus := ANALYZING;
          stErrorMsg := None |};
     isTaxesExpanded := true;
     uploadKey := uploadKey screen |}.

(** The outer [catch]. *)
Definition failed (message : string) (screen : Screen) : Screen :=
  {| state :=
       {| stBillData := stBillData (state screen);
          stNewOffer := stNewOffer (state screen);
          stMultiSimulations := stMultiSimulations (state screen);
          stStatus := ERROR;
          stErrorMsg := Some message |};
     isTaxesExpanded := isTaxesExpanded screen;
     uploadKey := uploadKey screen |}.

Definition succeeded (billData : BillData) (newOffer : NewOfferData)
    (screen : Screen) : Screen :=
  {| state :=
       {| stBillData := billData;
          stNewOffer := newOffer;
          stMultiSimulations := stMultiSimulations (state screen);
          stStatus := SUCCESS;
          stErrorMsg := stErrorMsg (state screen) |};
     isTaxesExpanded := isTaxesExpanded screen;
     uploadKey := uploadKey screen |}.

(** [mimeType === 'application/json' || base64.startsWith('ew')] *)
Definition isSimulationImport (base64 mimeType : string) : bool :=
  String.eqb mimeType "application/json" || String.prefix "ew" base64.

(** The state once the handler has settled. *)
Definition handleFileSelect (base64 mimeType : string) (screen : Screen) : Screen :=
  let started := analysing screen in
  if isSimulationImport base64 mimeType then
    match decode base64 with
    | Document (Some billData) (Some newOffer) =>
        succeeded billData newOffer started
    | _ => failed (messageOr (Some invalidSimulation) analysisFailed) started
    end
  else
    match extractBillData base64 mimeType with
    | Extracted data => succeeded data (stNewOffer (state started)) started
    | Rejected message => failed (messageOr message analysisFailed) started
    end.

End Upload.

(** ** Names of the downloaded files ([handleSaveSimulation],
    [handleDownloadReport])

    A character of a [string] stands for the UTF-16 code unit of the same
    number; code units above 255 are not modelled. *)

(** The class [\s] of a regular expression, below 256: tab, line feed,
    vertical tab, form feed, carriage return, space, no-break space. *)
Definition isWhiteSpace (c : ascii) : bool :=
  match nat_of_ascii c with
  | 9 | 10 | 11 | 12 | 13 | 32 | 160 => true
  | _ => false
  end%nat.

(** [text.replace(/\s+/g, '_')]; [inRun] tells that the character before
    was white space, already replaced. *)
Fixpoint replaceWhiteSpace (inRun : bool) (text : string) : string :=
  match text with
  | EmptyString => EmptyString
  | String c rest =>
      if isWhiteSpace c then
        if inRun then replaceWhiteSpace true rest
        else String "_" (replaceWhiteSpace true rest)
      else String c (replaceWhiteSpace false rest)
  end.

(** [text.replace(/[:T]/g, '_')] *)
Fixpoint replaceColonT (text : string) : string :=
  match text with
  | EmptyString => EmptyString
  | String c rest =>
      String (if (Ascii.eqb c ":" || Ascii.eqb c "T")%bool then "_"%char else c)
        (replaceColonT rest)
  end.

(** [newOffer.supplierName ? newOffer.supplierName.replace(/\s+/g, '_') : fallback] *)
Definition supplierSlug (newOffer : NewOfferData) (fallback : string) : string :=
  match supplierName newOffer with
  | Some name =>
      if String.eqb name EmptyString then fallback
      else replaceWhiteSpace false name
  | None => fallback
  end.

(** [now.toISOString().slice(0, 16).replace(/[:T]/g, '_')], [iso] being
    [now.toISOString()]. *)
Definition fileTimestamp (iso : string) : string :=
  replaceColonT (String.substring 0 16 iso).

(** [link.download] of [handleSaveSimulation] and of
    [handleDownloadReport]. *)
Definition simulationFileName (newOffer : NewOfferData) (iso : string) : string :=
  ("Comparativo_" ++ supplierSlug newOffer "Simulacao" ++ "_"
   ++ fileTimestamp iso ++ ".json")%string.

Definition reportFileName (newOffer : NewOfferData) (iso : string) : string :=
  ("Relatorio_" ++ supplierSlug newOffer "Nova_Proposta" ++ "_"
   ++ fileTimestamp iso ++ ".txt")%string.

(** ** Further definitions used to state properties *)




(** A parsed document that carries an offer and a timestamp. *)
Definition stampedOffer (value : json) : Prop :=
  exists properties,
    value = JObject properties
    /\ truthy (lookup "newOffer" properties) = true
    /\ truthy (lookup "timestamp" properties) = true.

(** An event the two forms can raise: the bill form has no input for
    [totalAmount] and none for [billingPeriodDays]. *)
Definition fromForms (event : FormEvent) : bool :=
  match event with
  | BillInput field _ => hasInput field
  | OfferInput _ _ => true
  end.

(** A bill as manual entry leaves it: the billing period and the total
    amount are those of [getInitialBillData], and no number of it is
    [NaN]. *)
Definition enteredByHand (billData : BillData) : Prop :=
  billingPeriodDays billData = Num 30
  /\ totalAmount billData = Num 0
  /\ monthlyConsumptionKwh billData <> NaN
  /\ contractedPowerKva billData <> NaN
  /\ audiovisualTax billData <> NaN
  /\ dgegTax billData <> NaN
  /\ ieceTax billData <> NaN
  /\ socialTariff billData <> NaN
  /\ currentPowerPricePerDay billData <> Some NaN
  /\ currentEnergyPricePerKwh billData <> Some NaN.

(** Neither price of the offer is [NaN]. *)
Definition pricedOffer (newOffer : NewOfferData) : Prop :=
  powerPricePerDay newOffer <> NaN /\ energyPricePerKwh newOffer <> NaN.

(** No character of [text] satisfies [p]. *)
Fixpoint noneOf (p : ascii -> bool) (text : string) : bool :=
  match text with
  | EmptyString => true
  | String c rest => negb (p c) && noneOf p rest
  end.

(** Inputs on which the statements about the forms, the uploads and the
    file names are tried. *)
Definition exampleParseFloat (value : string) : number :=
  if String.eqb value "250" then Num 250
  else if String.eqb value "0.17" then Num 0.17
  else NaN.

Definition exampleInputs : list FormEvent :=
  [BillInput Key_monthlyConsumptionKwh "250";
   BillInput Key_currentEnergyPricePerKwh "0.17";
   BillInput Key_audiovisualTax "";
   OfferInput Key_supplierName "Luz Verde";
   OfferInput Key_energyPricePerKwh "0.17"].

Definition exampleScreen : Screen :=
  {| state := initialState; isTaxesExpanded := false; uploadKey := 0 |}.

Definition exampleDecode (base64 : string) : Decoded :=
  if String.eqb base64 "ewA" then Document (Some zeroDaysBill) (Some (offerAt "A" 0.18))
  else if String.eqb base64 "ewB" then Document None (Some (offerAt "A" 0.18))
  else DecodeThrows.

Definition exampleExtract (base64 mimeType : string) : Extraction :=
  if String.eqb base64 "JVBE" then Extracted zeroDaysBill else Rejected None.

(** ** The calculation on binary64

    [calculateWithVat] once more, on the numbers JavaScript computes with:
    every operation is the IEEE 754 binary64 one, rounded to nearest, and a
    decimal literal stands for the binary64 value nearest to it. *)

#[local] Set Warnings "-inexact-float".

Module Binary64.

Import PrimFloat.
Local Open Scope float_scope.

(** [Math.min(x, y)] and [Math.max(x, y)]: [NaN] when an argument is, and
    [-0] below [+0]. *)
Definition Math_min (x y : float) : float :=
  if is_nan x || is_nan y then nan
  else if x <? y then x
  else if y <? x then y
  else if get_sign x then x else y.

Definition Math_max (x y : float) : float :=
  if is_nan x || is_nan y then nan
  else if x <? y then y
  else if y <? x then x
  else if get_sign x then y else x.

Record Taxes : Type := {
  cav : float;
  dgeg : float;
  iec : float;
  social : float
}.

Module Part.
Record t : Type := { base : float; vat : float; total : float }.
End Part.

Module Components.
Record t : Type := { energy : Part.t; power : Part.t; taxes : Part.t }.
End Components.

Record CostBreakdown : Type := {
  base : float;
  vat : float;
  total : float;
  components : Components.t
}.

Definition calculateWithVat
    (consumption powerKva days powerPrice energyPrice : float)
    (taxes : Taxes) : CostBreakdown :=
  let IVA_LOW := 0.06 in
  let IVA_NORMAL := 0.23 in
  let powerBaseCost := days * powerPrice in
  let powerVatRate := if powerKva <=? 6.9 then IVA_LOW else IVA_NORMAL in
  let powerVat := powerBaseCost * powerVatRate in
  let energyBaseCost := consumption * energyPrice in
  let energyVat :=
    if powerKva <=? 6.9 then
      let tier1Cap := 100 in
      let tier1Kwh := Math_min consumption tier1Cap in
      let tier2Kwh := Math_max 0 (consumption - tier1Cap) in
      let tier1Cost := tier1Kwh * energyPrice in
      let tier2Cost := tier2Kwh * energyPrice in
      (tier1Cost * IVA_LOW) + (tier2Cost * IVA_NORMAL)
    else energyBaseCost * IVA_NORMAL in
  let cavVat := cav taxes * IVA_LOW in
  let dgegVat := dgeg taxes * IVA_NORMAL in
  let iecVat := iec taxes * IVA_NORMAL in
  let socialVat := 0 in
  let totalBase :=
    powerBaseCost + energyBaseCost + cav taxes + dgeg taxes + iec taxes
    + social taxes in
  let totalVat :=
    powerVat + energyVat + cavVat + dgegVat + iecVat + socialVat in
  let totalWithVat := totalBase + totalVat in
  {| base := totalBase;
     vat := totalVat;
     total := totalWithVat;
     components :=
       {| Components.energy :=
            {| Part.base := energyBaseCost;
               Part.vat := energyVat;
               Part.total := energyBaseCost + energyVat |};
          Components.power :=
            {| Part.base := powerBaseCost;
               Part.vat := powerVat;
               Part.total := powerBaseCost + powerVat |};
          Components.taxes :=
            {| Part.base :=
                 cav taxes + dgeg taxes + iec taxes + social taxes;
               Part.vat := cavVat + dgegVat + iecVat + socialVat;
               Part.total :=
                 (cav taxes + dgeg taxes + iec taxes + social taxes)
                 + (cavVat + dgegVat + iecVat + socialVat) |} |} |}.

(** The worked example of the specification, with a social tariff of
    [socialTax]. *)
Definition exampleWith (socialTax : float) : CostBreakdown :=
  calculateWithVat 200 4.6 30 0.15 0.18
    {| cav := 1.5; dgeg := 0.10; iec := 6.0; social := socialTax |}.

End Binary64.

(** ** Facts about numbers *)

Lemma same_refl (x : number) : x =~ x.
Proof. destruct x; simpl; auto with qarith. Qed.

Lemma same_sym (x y : number) : x =~ y -> y =~ x.
Proof. destruct x, y; simpl; auto with qarith. Qed.

Lemma same_trans (x y z : number) : x =~ y -> y =~ z -> x =~ z.
Proof.
  destruct x, y, z; simpl; try tauto.
  intros H1 H2. now rewrite H1.
Qed.

#[export] Instance same_equivalence : Equivalence same.
Proof.
  split; [exact same_refl | exact same_sym | exact same_trans].
Qed.

Lemma signed_infinity_proper (a b : Q) (s : bool) :
  (a == b)%Q -> JS.signed_infinity a s = JS.signed_infinity b s.
Proof. intros H. unfold JS.signed_infinity. now rewrite H. Qed.

#[export] Instance neg_proper : Proper (same ==> same) JS.neg.
Proof.
  intros [a| | |] [b| | |]; simpl; try tauto.
  intros H. now rewrite H.
Qed.

#[export] Instance add_proper : Proper (same ==> same ==> same) JS.add.
Proof.
  intros [a| | |] [b| | |] Hab [c| | |] [d| | |] Hcd; simpl in *; try tauto.
  now rewrite Hab, Hcd.
Qed.

#[export] Instance sub_proper : Proper (same ==> same ==> same) JS.sub.
Proof. intros x y Hxy u v Huv. unfold JS.sub. now rewrite Hxy, Huv. Qed.

#[export] Instance mul_proper : Proper (same ==> same ==> same) JS.mul.
Proof.
  intros [a| | |] [b| | |] Hab [c| | |] [d| | |] Hcd; simpl in *; try tauto;
    try (now rewrite Hab, Hcd);
    try (rewrite (signed_infinity_proper _ _ _ Hab); reflexivity);
    try (rewrite (signed_infinity_proper _ _ _ Hcd); reflexivity).
Qed.

#[export] Instance leb_proper : Proper (same ==> same ==> eq) JS.leb.
Proof.
  intros [a| | |] [b| | |] Hab [c| | |] [d| | |] Hcd; simpl in *; try tauto.
  now rewrite Hab, Hcd.
Qed.

#[export] Instance ltb_proper : Proper (same ==> same ==> eq) JS.ltb.
Proof.
  intros [a| | |] [b| | |] Hab [c| | |] [d| | |] Hcd; simpl in *; try tauto.
  now rewrite Hab, Hcd.
Qed.

Lemma add_comm (x y : number) : x + y =~ y + x.
Proof. destruct x, y; simpl; auto. ring. Qed.

Lemma add_assoc (x y z : number) : x + (y + z) =~ (x + y) + z.
Proof. destruct x, y, z; simpl; auto. ring. Qed.

#[export] Instance add_Associative : Associative same JS.add := add_assoc.
#[export] Instance add_Commutative : Commutative same JS.add := add_comm.

(** Reading the boolean comparisons of finite numbers. *)
Lemma leb_Num (a b : Q) : (Num a <=? Num b) = true <-> (a <= b)%Q.
Proof. simpl. apply Qle_bool_iff. Qed.

Lemma leb_Num_false (a b : Q) : (Num a <=? Num b) = false <-> (b < a)%Q.
Proof.
  simpl. split; intros H.
  - apply Qnot_le_lt. intros Hle. apply Qle_bool_iff in Hle. congruence.
  - destruct (Qle_bool a b) eqn:E; [|reflexivity].
    apply Qle_bool_iff in E. exfalso. apply (Qlt_not_le _ _ H E).
Qed.

Lemma ltb_Num (a b : Q) : (Num a <? Num b) = true <-> (a < b)%Q.
Proof.
  simpl. rewrite negb_true_iff. apply (leb_Num_false b a).
Qed.

Lemma ltb_Num_false (a b : Q) : (Num a <? Num b) = false <-> (b <= a)%Q.
Proof. simpl. rewrite negb_false_iff. apply Qle_bool_iff. Qed.

(** [x > y] is the negation of [x <= y] except on [NaN]. *)
Lemma ltb_leb_false (x y : number) : (y <? x) = true -> (x <=? y) = false.
Proof.
  destruct x as [a| | |], y as [b| | |]; simpl; try congruence.
  rewrite negb_true_iff. auto.
Qed.

Lemma Math_min_Num (a b : Q) : JS.Math_min (Num a) (Num b) =~ Num (Qmin a b).
Proof.
  simpl. destruct (Qle_bool a b) eqn:E; simpl.
  - apply Qle_bool_iff in E. symmetry. now apply Q.min_l.
  - apply (leb_Num_false a b) in E. symmetry. apply Q.min_r. now apply Qlt_le_weak.
Qed.

Lemma Math_max_Num (a b : Q) : JS.Math_max (Num a) (Num b) =~ Num (Qmax a b).
Proof.
  simpl. destruct (Qle_bool a b) eqn:E; simpl.
  - apply Qle_bool_iff in E. symmetry. now apply Q.max_r.
  - apply (leb_Num_false a b) in E. symmetry. apply Q.max_l. now apply Qlt_le_weak.
Qed.

(** ** The VAT calculation *)

Lemma tier1Kwh_spec (consumption : Q) :
  tier1Kwh (Num consumption) =~ Num (spec_tier1 consumption).
Proof. apply Math_min_Num. Qed.

Lemma tier2Kwh_spec (consumption : Q) :
  tier2Kwh (Num consumption) =~ Num (spec_tier2 consumption).
Proof.
  unfold tier2Kwh, tier1Cap, spec_tier2, spec_tier1. cbn [JS.sub JS.neg JS.add].
  rewrite Math_max_Num. simpl.
  destruct (Q.max_spec 0 (consumption + - (100))) as [[H ->]|[H ->]];
    destruct (Q.min_spec consumption 100) as [[H' ->]|[H' ->]]; lra.
Qed.

(** C1.  With a contracted power of at most 6.9 kVA the energy VAT is the
    low rate on tier 1 = min(consumption, 100) plus the standard rate on
    tier 2 = the remainder, both tiers costed at the same energy price;
    with a contracted power above 6.9 kVA the whole energy base
    (consumption x energy price) is taxed at the standard rate. *)
Theorem calculateWithVat_energy_vat :
  forall (consumption : Q) (powerKva days powerPrice energyPrice : number)
         (taxes : Taxes),
    let energy :=
      Components.energy
        (components (calculateWithVat (Num consumption) powerKva days
                       powerPrice energyPrice taxes)) in
    ((powerKva <=? Num 6.9) = true ->
     Part.vat energy
     =~ (Num (spec_tier1 consumption) * energyPrice) * IVA_LOW
        + (Num (spec_tier2 consumption) * energyPrice) * IVA_NORMAL)
    /\ ((Num 6.9 <? powerKva) = true ->
        Part.base energy = Num consumption * energyPrice
        /\ Part.vat energy = (Num consumption * energyPrice) * IVA_NORMAL).
Proof.
  intros consumption powerKva days powerPrice energyPrice taxes energy.
  subst energy. cbn [calculateWithVat components Components.energy Part.vat Part.base].
  split.
  - intros ->. unfold tier1Vat, tier2Vat.
    now rewrite tier1Kwh_spec, tier2Kwh_spec.
  - intros H. apply ltb_leb_false in H. rewrite H. split; reflexivity.
Qed.

Lemma calculateWithVat_energy_vat_witness :
  (let energy :=
     Components.energy
       (components (calculateWithVat (Num 200) (Num 4.6) (Num 30) (Num 0.15)
                      (Num 0.18)
                      {| cav := Num 1.5; dgeg := Num 0.10; iec := Num 6;
                         social := Num 0 |})) in
   Part.vat energy
   =~ (Num (spec_tier1 200) * Num 0.18) * IVA_LOW
      + (Num (spec_tier2 200) * Num 0.18) * IVA_NORMAL)
  /\ (let energy :=
        Components.energy
          (components (calculateWithVat (Num 200) (Num 10.35) (Num 30)
                         (Num 0.15) (Num 0.18)
                         {| cav := Num 1.5; dgeg := Num 0.10; iec := Num 6;
                            social := Num 0 |})) in
      Part.base energy = Num 200 * Num 0.18
      /\ Part.vat energy = (Num 200 * Num 0.18) * IVA_NORMAL).
Proof.
  split.
  - apply (calculateWithVat_energy_vat 200 (Num 4.6)). reflexivity.
  - apply (calculateWithVat_energy_vat 200 (Num 10.35)). reflexivity.
Defined.

(** C2.  For billing days > 0, contracted power >= 0 and energy price >= 0,
    the breakdown's total is its base plus its vat, and so is the total of
    each of the three sub-breakdowns: the very same sum, with no rounding
    or other step in between. *)
Theorem calculateWithVat_total_is_base_plus_vat :
  forall (consumption powerKva days powerPrice energyPrice : number)
         (taxes : Taxes),
    (Num 0 <? days) = true ->
    (Num 0 <=? powerKva) = true ->
    (Num 0 <=? energyPrice) = true ->
    let r := calculateWithVat consumption powerKva days powerPrice energyPrice taxes in
    total r = base r + vat r
    /\ Part.total (Components.energy (components r))
       = Part.base (Components.energy (components r))
         + Part.vat (Components.energy (components r))
    /\ Part.total (Components.power (components r))
       = Part.base (Components.power (components r))
         + Part.vat (Components.power (components r))
    /\ Part.total (Components.taxes (components r))
       = Part.base (Components.taxes (components r))
         + Part.vat (Components.taxes (components r)).
Proof.
  intros consumption powerKva days powerPrice energyPrice taxes _ _ _ r.
  repeat split.
Qed.

Lemma calculateWithVat_total_is_base_plus_vat_witness :
  let r :=
    calculateWithVat (Num 200) (Num 4.6) (Num 30) (Num 0.15) (Num 0.18)
      {| cav := Num 1.5; dgeg := Num 0.10; iec := Num 6; social := Num (-5) |} in
  total r = base r + vat r
  /\ Part.total (Components.energy (components r))
     = Part.base (Components.energy (components r))
       + Part.vat (Components.energy (components r))
  /\ Part.total (Components.power (components r))
     = Part.base (Components.power (components r))
       + Part.vat (Components.power (components r))
  /\ Part.total (Components.taxes (components r))
     = Part.base (Components.taxes (components r))
       + Part.vat (Components.taxes (components r)).
Proof.
  apply (calculateWithVat_total_is_base_plus_vat
           (Num 200) (Num 4.6) (Num 30) (Num 0.15) (Num 0.18));
    reflexivity.
Defined.

(** C9 (amended).  The top-level base and vat are sums of the bases and
    vats of the power and of the energy and of the terms of the taxes, added
    in the order [power, energy, cav, dgeg, iec, social], and the total is
    base plus vat.  The three sub-breakdowns hold the same terms, so in exact
    arithmetic the grand total is the sum of the three component totals and
    the top-level base and vat are the sums of the components' bases and
    vats: the sub-breakdowns partition the breakdown. *)
Theorem calculateWithVat_components_partition :
  forall (consumption powerKva days powerPrice energyPrice : number)
         (taxes : Taxes),
    let r := calculateWithVat consumption powerKva days powerPrice energyPrice taxes in
    let energy := Components.energy (components r) in
    let power := Components.power (components r) in
    let tax := Components.taxes (components r) in
    (base r
     = Part.base power + Part.base energy
       + cav taxes + dgeg taxes + iec taxes + social taxes
     /\ Part.base tax = cav taxes + dgeg taxes + iec taxes + social taxes
     /\ vat r
        = Part.vat power + Part.vat energy
          + cav taxes * IVA_LOW + dgeg taxes * IVA_NORMAL + iec taxes * IVA_NORMAL
          + Num 0
     /\ Part.vat tax
        = cav taxes * IVA_LOW + dgeg taxes * IVA_NORMAL + iec taxes * IVA_NORMAL
          + Num 0
     /\ total r = base r + vat r)
    /\ (total r =~ Part.total energy + Part.total power + Part.total tax
        /\ base r =~ Part.base energy + Part.base power + Part.base tax
        /\ vat r =~ Part.vat energy + Part.vat power + Part.vat tax).
Proof.
  intros consumption powerKva days powerPrice energyPrice taxes r energy power tax.
  subst energy power tax r.
  cbn [calculateWithVat components total base vat
       Components.energy Components.power Components.taxes
       Part.total Part.base Part.vat].
  split; [repeat split|].
  repeat split; aac_reflexivity.
Qed.

(** C7.  With finite inputs, a social tariff of 0 gives the base total
    [days x powerPrice + consumption x energyPrice + cav + dgeg + iec], a
    finite number, and a social tariff of -5 gives that number less 5; the
    VAT total is finite and the same in both calls.  Whatever the other
    inputs, finite or not, the base with -5 is the base with 0 less 5 and the
    VAT totals are the same. *)
Theorem calculateWithVat_social_tariff :
  (forall (c d pp ep cavTax dgegTax iecTax : Q) (powerKva : number),
      let withSocial (s : Q) :=
        calculateWithVat (Num c) powerKva (Num d) (Num pp) (Num ep)
          (finiteTaxes cavTax dgegTax iecTax s) in
      let b := (d * pp + c * ep + cavTax + dgegTax + iecTax)%Q in
      base (withSocial 0) =~ Num b
      /\ base (withSocial (-5)) =~ Num (b - 5)
      /\ JS.isFinite (vat (withSocial 0)) = true
      /\ vat (withSocial (-5)) = vat (withSocial 0))
  /\ (forall (consumption powerKva days powerPrice energyPrice : number)
             (cavTax dgegTax iecTax : number),
         let withSocial (s : number) :=
           calculateWithVat consumption powerKva days powerPrice energyPrice
             {| cav := cavTax; dgeg := dgegTax; iec := iecTax; social := s |} in
         base (withSocial (Num (-5))) =~ base (withSocial (Num 0)) - Num 5
         /\ vat (withSocial (Num (-5))) = vat (withSocial (Num 0))).
Proof.
  split.
  - intros c d pp ep cavTax dgegTax iecTax powerKva withSocial b.
    subst withSocial b. unfold finiteTaxes.
    cbn [calculateWithVat base vat cav dgeg iec social].
    split; [|split; [|split]].
    + cbn [JS.mul JS.add same]. ring.
    + cbn [JS.mul JS.add same]. ring.
    + unfold powerVatRate, tier1Vat, tier2Vat, tier1Kwh, tier2Kwh, tier1Cap,
        IVA_LOW, IVA_NORMAL.
      destruct (powerKva <=? Num 6.9); cbn;
        repeat match goal with
               | |- context [if ?b then _ else _] => destruct b
               end; reflexivity.
    + reflexivity.
  - intros consumption powerKva days powerPrice energyPrice cavTax dgegTax iecTax
           withSocial.
    subst withSocial. cbn [calculateWithVat base vat cav dgeg iec social].
    split; [|reflexivity].
    destruct (days * powerPrice + consumption * energyPrice + cavTax + dgegTax + iecTax);
      simpl; auto.
    ring.
Qed.

(** On the worked example the base total is 48.10 without social tariff
    and 43.10 with a social tariff of -5, and the VAT total is 6.983 in
    both. *)
Lemma calculateWithVat_social_tariff_witness :
  let withSocial (s : Q) :=
    calculateWithVat (Num 200) (Num 4.6) (Num 30) (Num 0.15) (Num 0.18)
      (finiteTaxes 1.5 0.10 6.0 s) in
  base (withSocial 0) =~ Num 48.10
  /\ base (withSocial (-5)) =~ Num 43.10
  /\ vat (withSocial (-5)) =~ Num 6.983
  /\ vat (withSocial 0) =~ Num 6.983.
Proof.
  intros withSocial.
  destruct calculateWithVat_social_tariff as [Hfinite _].
  destruct (Hfinite 200 30 0.15 0.18 1.5 0.10 6.0 (Num 4.6))
    as (Hbase & Hlower & _ & Hvat).
  split; [|split; [|split]].
  - apply (same_trans _ _ _ Hbase). vm_compute. reflexivity.
  - apply (same_trans _ _ _ Hlower). vm_compute. reflexivity.
  - change (vat (withSocial (-5))) with (vat (withSocial 0)) in Hvat |- *.
    vm_compute. reflexivity.
  - vm_compute. reflexivity.
Defined.

(** C3 (as the code computes it).  On the worked example the code returns
    power base 4.50, energy base 36.00, tier-1 VAT 1.08 (100 kWh x 0.18 x
    6%), tier-2 VAT 4.14, energy VAT 5.22, power VAT 0.27, CAV VAT 0.09,
    DGEG VAT 0.023, IEC VAT 1.38, base total 48.10, tax total 6.983 and
    grand total 55.083, all exactly in exact arithmetic. *)
Theorem calculateWithVat_example :
  let energy := Components.energy (components exampleBreakdown) in
  let power := Components.power (components exampleBreakdown) in
  Part.base power =~ Num 4.50
  /\ Part.base energy =~ Num 36.00
  /\ tier1Vat (Num 200) (Num 0.18) =~ Num 1.08
  /\ tier2Vat (Num 200) (Num 0.18) =~ Num 4.14
  /\ Part.vat energy =~ Num 5.22
  /\ Part.vat power =~ Num 0.27
  /\ cav exampleTaxes * IVA_LOW =~ Num 0.09
  /\ dgeg exampleTaxes * IVA_NORMAL =~ Num 0.023
  /\ iec exampleTaxes * IVA_NORMAL =~ Num 1.38
  /\ base exampleBreakdown =~ Num 48.10
  /\ vat exampleBreakdown =~ Num 6.983
  /\ total exampleBreakdown =~ Num 55.083.
Proof. vm_compute. repeat split. Qed.

(** C3, as stated, fails on the code: the tier-1 VAT is not 0.54 and the
    energy VAT is not 4.68, and the tax total and the grand total exceed
    6.443 and 54.543 by 0.54 each. *)
Lemma calculateWithVat_example_not_as_stated :
  ~ (tier1Vat (Num 200) (Num 0.18) =~ Num 0.54)
  /\ ~ (Part.vat (Components.energy (components exampleBreakdown)) =~ Num 4.68)
  /\ vat exampleBreakdown - Num 6.443 =~ Num 0.54
  /\ total exampleBreakdown - Num 54.543 =~ Num 0.54.
Proof. vm_compute. repeat split; discriminate. Qed.




(** ** The stable sort *)

Lemma Array_insert_perm {A : Type} (compareFn : A -> A -> number) (x : A) (l : list A) :
  Permutation (Array_insert compareFn x l) (x :: l).
Proof.
  induction l as [|y rest IH]; simpl.
  - reflexivity.
  - destruct (compareFn y x <? Num 0).
    + rewrite IH. apply perm_swap.
    + reflexivity.
Qed.

Lemma Array_sort_perm {A : Type} (compareFn : A -> A -> number) (l : list A) :
  Permutation (Array_sort compareFn l) l.
Proof.
  induction l as [|x rest IH]; simpl.
  - reflexivity.
  - rewrite Array_insert_perm. now constructor.
Qed.



Section StableSort.

Context {A : Type} (compareFn : A -> A -> number).
Context (key : A -> Q) (index : A -> nat) (ok : A -> Prop).

(** On the elements at hand the comparator is negative exactly when the
    first key is the smaller one. *)
Hypothesis compareFn_key :
  forall a b, ok a -> ok b ->
    ((compareFn a b <? Num 0) = true <-> (key a < key b)%Q).




End StableSort.


(** ** [Array_map] *)

Lemma Array_map_from_Forall {A B : Type} (f : A -> nat -> B) (P : B -> Prop) :
  forall (l : list A) (start : nat),
    (forall i x, nth_error l i = Some x -> P (f x (start + i)%nat)) ->
    Forall P (Array_map_from f start l).
Proof.
  induction l as [|x rest IH]; intros start H; simpl.
  - constructor.
  - constructor.
    + specialize (H 0%nat x eq_refl). now rewrite Nat.add_0_r in H.
    + apply IH. intros i y Hy.
      specialize (H (S i) y Hy). now rewrite Nat.add_succ_r in H.
Qed.




(** ** Finite inputs give finite totals *)



Lemma strict_eq_zero (x : number) : (x === Num 0) = true <-> x =~ Num 0.
Proof.
  destruct x; simpl; try (split; [discriminate | tauto]).
  apply Qeq_bool_iff.
Qed.


(** ** The single comparison *)

(** C5.  [comparison] returns null exactly when the bill's consumption is
    0; otherwise it returns a result whose two totals are computed with the
    bill's own consumption, power, days and taxes (the current prices for
    one, the offer's prices for the other), whose difference is current
    total minus new total and whose [isCheaper] is the strict test
    new total < current total. *)
Theorem comparison_spec :
  forall (billData : BillData) (newOffer : NewOfferData),
    (comparison billData newOffer = None
     <-> monthlyConsumptionKwh billData =~ Num 0)
    /\ (~ monthlyConsumptionKwh billData =~ Num 0 ->
        exists r,
          comparison billData newOffer = Some r
          /\ currentTotal r
             = total (calculateWithVat
                        (monthlyConsumptionKwh billData)
                        (contractedPowerKva billData)
                        (billingPeriodDays billData)
                        (JS.or_else (currentPowerPricePerDay billData) (Num 0))
                        (JS.or_else (currentEnergyPricePerKwh billData) (Num 0))
                        (billTaxes billData))
          /\ newTotal r
             = total (calculateWithVat
                        (monthlyConsumptionKwh billData)
                        (contractedPowerKva billData)
                        (billingPeriodDays billData)
                        (powerPricePerDay newOffer)
                        (energyPricePerKwh newOffer)
                        (billTaxes billData))
          /\ difference r = currentTotal r - newTotal r
          /\ isCheaper r = (newTotal r <? currentTotal r)).
Proof.
  intros billData newOffer. rewrite <- strict_eq_zero. unfold comparison.
  destruct (monthlyConsumptionKwh billData === Num 0).
  - split; [tauto | congruence].
  - split; [split; discriminate|].
    intros _. eexists. split; [reflexivity|]. cbn. repeat split.
Qed.

Lemma comparison_spec_witness :
  exists r,
    comparison exampleBill (offerAt "A" 0.18) = Some r
    /\ currentTotal r
       = total (calculateWithVat (Num 200) (Num 4.6) (Num 30) (Num 0.15) (Num 0.20)
                  exampleTaxes)
    /\ newTotal r
       = total (calculateWithVat (Num 200) (Num 4.6) (Num 30) (Num 0.15) (Num 0.18)
                  exampleTaxes)
    /\ difference r = currentTotal r - newTotal r
    /\ isCheaper r = (newTotal r <? currentTotal r).
Proof.
  apply (comparison_spec exampleBill (offerAt "A" 0.18)).
  simpl. unfold Qeq. simpl. discriminate.
Defined.

(** ** The yearly extrapolation on a billing period of zero days *)

Lemma div_by_zero (d : number) : d =~ Num 0 -> Num 365 / d = Infinity.
Proof.
  destruct d as [q| | |]; simpl; try tauto.
  intros H. apply Qeq_bool_iff in H. now rewrite H.
Qed.

Lemma mul_Infinity_not_finite (x : number) : JS.isFinite (x * Infinity) = false.
Proof.
  destruct x as [q| | |]; simpl; try reflexivity.
  unfold JS.signed_infinity. now destruct (q ?= 0).
Qed.

(** C4 (as the code behaves).  Nothing guards the extrapolation: for a bill
    with a billing period of 0 days and a consumption other than 0, the
    yearly savings of the comparison, and of every ranked offer, are
    difference x (365 / 0) = difference x Infinity, which is never a finite
    number (it is Infinity, -Infinity or NaN). *)
Theorem yearlySavings_zero_days :
  forall (billData : BillData) (newOffer : NewOfferData)
         (multiSimulations : list SavedSimulation.t),
    billingPeriodDays billData =~ Num 0 ->
    ~ monthlyConsumptionKwh billData =~ Num 0 ->
    (exists r,
        comparison billData newOffer = Some r
        /\ yearlySavings r = difference r * Infinity
        /\ JS.isFinite (yearlySavings r) = false)
    /\ Forall (fun r => JS.isFinite (Ranked.yearlySavings r) = false)
         (multiComparisonResults billData multiSimulations).
Proof.
  intros billData newOffer multiSimulations Hdays Hconsumption.
  rewrite <- strict_eq_zero in Hconsumption.
  apply not_true_is_false in Hconsumption.
  unfold comparison, multiComparisonResults. rewrite Hconsumption.
  split.
  - eexists. split; [reflexivity|].
    cbn [yearlySavings difference]. rewrite (div_by_zero _ Hdays).
    split; [reflexivity | apply mul_Infinity_not_finite].
  - cbn [orb]. destruct (List.length multiSimulations =? 0)%nat; [constructor|].
    rewrite (Array_sort_perm byCalculatedTotal).
    apply Array_map_from_Forall. intros i sim _.
    cbn [rankOne Ranked.yearlySavings]. rewrite (div_by_zero _ Hdays).
    apply mul_Infinity_not_finite.
Qed.

Lemma yearlySavings_zero_days_witness :
  (exists r,
      comparison zeroDaysBill (offerAt "A" 0.18) = Some r
      /\ yearlySavings r = difference r * Infinity
      /\ JS.isFinite (yearlySavings r) = false)
  /\ Forall (fun r => JS.isFinite (Ranked.yearlySavings r) = false)
       (multiComparisonResults zeroDaysBill exampleSimulations).
Proof.
  apply (yearlySavings_zero_days zeroDaysBill (offerAt "A" 0.18) exampleSimulations).
  - reflexivity.
  - simpl. unfold Qeq. simpl. discriminate.
Defined.

(** C4, as stated, fails on the code: with a billing period of 0 days and
    a consumption of 200 kWh the yearly savings are computed all the same,
    and they are Infinity, in the comparison and in the ranking. *)
Lemma yearlySavings_not_guarded :
  (billingPeriodDays zeroDaysBill === Num 0) = true
  /\ (monthlyConsumptionKwh zeroDaysBill === Num 0) = false
  /\ option_map yearlySavings (comparison zeroDaysBill (offerAt "A" 0.18))
     = Some Infinity
  /\ map Ranked.yearlySavings (multiComparisonResults zeroDaysBill exampleSimulations)
     = [Infinity; Infinity; Infinity].
Proof. vm_compute. repeat split. Qed.

(** ** The ranking *)









(** ** The batch loader *)

Lemma fold_onload (filesLength : nat) :
  forall (events : list LoadEvent) (acc : list json) (count : nat) (app : AppState),
    filesLength = (count + List.length events)%nat ->
    events <> [] ->
    snd (fold_left (fun st event => onload filesLength event st) events
           ({| newSims := acc; processedCount := count |}, app))
    = setMultiSimulations (acc ++ pushed events) app.
Proof.
  induction events as [|event rest IH]; intros acc count app Hlength Hevents.
  - congruence.
  - cbn [fold_left onload newSims processedCount].
    destruct rest as [|event' rest'].
    + cbn [List.length] in Hlength.
      replace (S count =? filesLength)%nat with true
        by (symmetry; apply Nat.eqb_eq; lia).
      cbn [fold_left snd]. unfold pushed. cbn [flat_map].
      destruct (accepted event); now rewrite ?app_nil_r.
    + replace (S count =? filesLength)%nat with false
        by (symmetry; apply Nat.eqb_neq; cbn [List.length] in Hlength; lia).
      rewrite IH; [|cbn [List.length] in *; lia | discriminate].
      f_equal. unfold pushed. cbn [flat_map].
      destruct (accepted event); [now rewrite <- app_assoc | reflexivity].
Qed.

Lemma handleAddMultiSimulations_pushed (events : list LoadEvent) (app : AppState) :
  handleAddMultiSimulations events app = setMultiSimulations (pushed events) app.
Proof.
  unfold handleAddMultiSimulations. destruct events as [|event rest].
  - destruct app. unfold setMultiSimulations. cbn. now rewrite app_nil_r.
  - now rewrite fold_onload.
Qed.

Lemma accepted_iff (event : LoadEvent) (value : json) :
  accepted event = Some value
  <-> exists properties,
      text event = Parses (JObject properties)
      /\ truthy (lookup "newOffer" properties) = true
      /\ value
         = if truthy (lookup "timestamp" properties)
           then JObject properties
           else JObject (assign "timestamp" (JString (now event)) properties).
Proof.
  unfold accepted. split.
  - destruct (text event) as [| |[|b|n|s|items|properties]]; cbn; try discriminate.
    destruct (truthy (lookup "newOffer" properties)) eqn:Hoffer; [|discriminate].
    intros [= <-]. exists properties. auto.
  - intros (properties & -> & Hoffer & ->). cbn. now rewrite Hoffer.
Qed.

Lemma fold_onload_short (filesLength : nat) :
  forall (events : list LoadEvent) (acc : list json) (count : nat) (app : AppState),
    (count + List.length events < filesLength)%nat ->
    snd (fold_left (fun st event => onload filesLength event st) events
           ({| newSims := acc; processedCount := count |}, app))
    = app.
Proof.
  induction events as [|event rest IH]; intros acc count app Hlength.
  - reflexivity.
  - cbn [fold_left onload newSims processedCount].
    cbn [List.length] in Hlength.
    replace (S count =? filesLength)%nat with false
      by (symmetry; apply Nat.eqb_neq; lia).
    apply IH. lia.
Qed.

Lemma loadEvents_length (reads : list FileRead) :
  (List.length (loadEvents reads) <= List.length reads)%nat.
Proof.
  unfold loadEvents.
  induction reads as [|[event|] rest IH]; cbn [flat_map app List.length]; lia.
Qed.

Lemma loadEvents_all (reads : list FileRead) :
  ~ In ReadFails reads -> List.length (loadEvents reads) = List.length reads.
Proof.
  unfold loadEvents.
  induction reads as [|[event|] rest IH]; intros H; cbn [flat_map app List.length].
  - reflexivity.
  - f_equal. apply IH. intros Hin. apply H. now right.
  - exfalso. apply H. now left.
Qed.

Lemma loadEvents_some_fails (reads : list FileRead) :
  In ReadFails reads -> (List.length (loadEvents reads) < List.length reads)%nat.
Proof.
  induction reads as [|[event|] rest IH]; intros H.
  - destruct H.
  - destruct H as [H|H]; [discriminate|]. specialize (IH H).
    unfold loadEvents in *. cbn [flat_map app List.length]. lia.
  - pose proof (loadEvents_length rest) as Hrest.
    unfold loadEvents in *. cbn [flat_map app List.length]. lia.
Qed.

Lemma loadEvents_app (reads reads' : list FileRead) :
  loadEvents (reads ++ reads') = loadEvents reads ++ loadEvents reads'.
Proof. apply flat_map_app. Qed.

Lemma ReadFails_dec (reads : list FileRead) :
  In ReadFails reads \/ ~ In ReadFails reads.
Proof.
  induction reads as [|[event|] rest IH]; cbn.
  - now right.
  - destruct IH as [IH|IH]; [left; now right | right].
    intros [H|H]; [discriminate | contradiction].
  - left. now left.
Qed.

(** A batch whose reads all end with [onload] commits what they pushed. *)
Lemma handleAddMultiSimulationsOf_complete (reads : list FileRead) (app : AppState) :
  ~ In ReadFails reads ->
  handleAddMultiSimulationsOf reads app
  = setMultiSimulations (pushed (loadEvents reads)) app.
Proof.
  intros H. unfold handleAddMultiSimulationsOf.
  pose proof (loadEvents_all reads H) as Hlength.
  destruct (loadEvents reads) as [|event rest] eqn:E.
  - destruct app. unfold setMultiSimulations. cbn. now rewrite app_nil_r.
  - rewrite <- E in *. rewrite fold_onload; [reflexivity | lia |].
    rewrite E. discriminate.
Qed.

(** A batch with a read that fails commits nothing. *)
Lemma handleAddMultiSimulationsOf_failed (reads : list FileRead) (app : AppState) :
  In ReadFails reads -> handleAddMultiSimulationsOf reads app = app.
Proof.
  intros H. unfold handleAddMultiSimulationsOf.
  apply fold_onload_short. apply loadEvents_some_fails in H. lia.
Qed.

(** [handleAddMultiSimulations] is the handler on the batches without a
    failing read. *)
Lemma handleAddMultiSimulations_Loads (events : list LoadEvent) (app : AppState) :
  handleAddMultiSimulations events app
  = handleAddMultiSimulationsOf (map Loads events) app.
Proof.
  unfold handleAddMultiSimulations, handleAddMultiSimulationsOf.
  rewrite length_map. f_equal. f_equal.
  induction events as [|event rest IH]; cbn; [reflexivity|]. now f_equal.
Qed.

Lemma pushed_length (events : list LoadEvent) :
  (List.length (pushed events) <= List.length events)%nat.
Proof.
  induction events as [|event rest IH]; [reflexivity|].
  unfold pushed in *. cbn [flat_map List.length]. rewrite length_app.
  destruct (accepted event); cbn [List.length]; lia.
Qed.

(** C10 (amended).  When the read of every file of the batch ends with
    [onload], the offer collection becomes the previous one followed by the
    documents of exactly those files whose text parses to a JSON object
    with a truthy [newOffer] property, in the order the reads completed;
    nothing is asked of [billData], [version] or [timestamp], and a missing
    or falsy timestamp is replaced by the current time.  When the read of
    one file fails, the collection stays as it was: no file of the batch is
    added, the valid ones included.  An empty or unparsable file adds
    nothing, and in every case the bill, the offer, the status and the
    error message are left as they were. *)
Theorem handleAddMultiSimulations_spec :
  forall (reads : list FileRead) (app : AppState),
    let app' := handleAddMultiSimulationsOf reads app in
    (~ In ReadFails reads ->
     stMultiSimulations app' = stMultiSimulations app ++ pushed (loadEvents reads))
    /\ (In ReadFails reads -> stMultiSimulations app' = stMultiSimulations app)
    /\ stBillData app' = stBillData app
    /\ stNewOffer app' = stNewOffer app
    /\ stStatus app' = stStatus app
    /\ stErrorMsg app' = stErrorMsg app
    /\ (forall event value,
           In value (pushed [event])
           <-> exists properties,
               text event = Parses (JObject properties)
               /\ truthy (lookup "newOffer" properties) = true
               /\ value
                  = if truthy (lookup "timestamp" properties)
                    then JObject properties
                    else JObject (assign "timestamp" (JString (now event)) properties))
    /\ (forall time, pushed [{| text := EmptyText; now := time |}] = [])
    /\ (forall time, pushed [{| text := Malformed; now := time |}] = []).
Proof.
  intros reads app app'. subst app'.
  split; [|split].
  - intros H. now rewrite handleAddMultiSimulationsOf_complete.
  - intros H. now rewrite handleAddMultiSimulationsOf_failed.
  - assert (Hkept :
              stBillData (handleAddMultiSimulationsOf reads app) = stBillData app
              /\ stNewOffer (handleAddMultiSimulationsOf reads app) = stNewOffer app
              /\ stStatus (handleAddMultiSimulationsOf reads app) = stStatus app
              /\ stErrorMsg (handleAddMultiSimulationsOf reads app) = stErrorMsg app).
    { destruct (ReadFails_dec reads) as [H|H].
      - rewrite handleAddMultiSimulationsOf_failed by exact H. repeat split.
      - rewrite handleAddMultiSimulationsOf_complete by exact H. repeat split. }
    destruct Hkept as (Hbill & Hoffer & Hstatus & Hmsg).
    repeat split; try assumption; try reflexivity.
    + intros Hin. apply accepted_iff. unfold pushed in Hin. cbn in Hin.
      destruct (accepted event); cbn in Hin; [|tauto].
      destruct Hin as [-> | []]. reflexivity.
    + intros H. apply accepted_iff in H. unfold pushed. cbn.
      rewrite H. now left.
Qed.

(** A batch of a malformed file, a document with an offer only and a
    document with a [null] offer adds the second, stamped; with one more
    file, whose read fails, it adds nothing. *)
Lemma handleAddMultiSimulations_spec_witness :
  stMultiSimulations
    (handleAddMultiSimulationsOf
       [Loads (at_noon Malformed); Loads (at_noon (Parses offerOnly));
        Loads (at_noon (Parses nullOffer))]
       initialState)
  = [setProperty offerOnly "timestamp" (JString "2025-06-01T12:00:00.000Z")]
  /\ stMultiSimulations
       (handleAddMultiSimulationsOf
          [Loads (at_noon Malformed); Loads (at_noon (Parses offerOnly));
           ReadFails; Loads (at_noon (Parses nullOffer))]
          initialState)
     = [].
Proof.
  split.
  - destruct (handleAddMultiSimulations_spec
                [Loads (at_noon Malformed); Loads (at_noon (Parses offerOnly));
                 Loads (at_noon (Parses nullOffer))]
                initialState) as (Hcomplete & _).
    rewrite Hcomplete; [reflexivity|].
    cbn. intros [H|[H|[H|[]]]]; discriminate.
  - destruct (handleAddMultiSimulations_spec
                [Loads (at_noon Malformed); Loads (at_noon (Parses offerOnly));
                 ReadFails; Loads (at_noon (Parses nullOffer))]
                initialState) as (_ & Hfailed & _).
    rewrite Hfailed; [reflexivity|].
    cbn. auto.
Defined.

(** The loader on a batch of four files: a document with an offer only is
    taken and stamped, the others are passed over. *)
Example handleAddMultiSimulations_example :
  stMultiSimulations
    (handleAddMultiSimulations
       [at_noon Malformed; at_noon (Parses offerOnly); at_noon EmptyText;
        at_noon (Parses nullOffer)]
       initialState)
  = [setProperty offerOnly "timestamp" (JString "2025-06-01T12:00:00.000Z")].
Proof. reflexivity. Qed.

(** C10, as stated, fails on the code: a file whose text parses and
    contains a [newOffer] field holding [null] is not added. *)
Lemma handleAddMultiSimulations_null_offer :
  lookup "newOffer" [("newOffer"%string, JNull)] = Some JNull
  /\ handleAddMultiSimulations [at_noon (Parses nullOffer)] initialState
     = initialState.
Proof. split; reflexivity. Qed.

(** ** Bounds and monotonicity of the calculation *)

(** Reading a boolean test on rationals as an order fact. *)
Lemma Qle_bool_false (a b : Q) : Qle_bool a b = false -> (b < a)%Q.
Proof. intros H. now apply (leb_Num_false a b). Qed.

Ltac order_facts :=
  repeat match goal with
         | H : Qle_bool _ _ = true |- _ => apply Qle_bool_iff in H
         | H : Qle_bool _ _ = false |- _ => apply Qle_bool_false in H
         | H : (Num _ <=? Num _) = true |- _ => apply leb_Num in H
         | H : (Num _ <=? Num _) = false |- _ => apply leb_Num_false in H
         | H : (Num _ <? Num _) = true |- _ => apply ltb_Num in H
         | H : (Num _ <? Num _) = false |- _ => apply ltb_Num_false in H
         end.

(** Unfolds the calculation on finite arguments down to rationals, one case
    per outcome of the tests on the consumption. *)
Ltac calc_cases :=
  unfold calculateWithVat, powerVatRate, tier1Vat, tier2Vat, tier1Kwh, tier2Kwh,
    tier1Cap, IVA_LOW, IVA_NORMAL;
  cbn [total base vat components cav dgeg iec social
       Components.energy Components.power Components.taxes
       Part.total Part.base Part.vat];
  try match goal with
      | |- context [JS.leb ?p (Num 6.9)] => destruct (JS.leb p (Num 6.9))
      end;
  cbn [JS.add JS.sub JS.neg JS.mul JS.Math_min JS.Math_max JS.leb];
  repeat match goal with
         | |- context [Qle_bool ?a ?b] =>
             let E := fresh "E" in destruct (Qle_bool a b) eqn:E
         end;
  cbn [JS.add JS.sub JS.neg JS.mul JS.leb JS.ltb same];
  order_facts.

(** Closes what [calc_cases] leaves: a test that came out as stated, or one
    whose outcome contradicts the order facts at hand. *)
Ltac close_order :=
  repeat split;
  first [ reflexivity | exfalso; nra | apply leb_Num; nra | apply ltb_Num; nra ].

(** X1.  VAT is never negative.  With non-negative consumption, days, prices
    and cav, dgeg and iec taxes, whatever the social tariff and the
    contracted power, the VAT total and the VAT of the energy, of the power
    and of the taxes are at least 0, and the total is at least the base
    total. *)
Theorem calculateWithVat_vat_not_negative :
  forall (c d pp ep cavTax dgegTax iecTax socialTax : Q) (powerKva : number),
    (0 <= c)%Q -> (0 <= d)%Q -> (0 <= pp)%Q -> (0 <= ep)%Q ->
    (0 <= cavTax)%Q -> (0 <= dgegTax)%Q -> (0 <= iecTax)%Q ->
    let r :=
      calculateWithVat (Num c) powerKva (Num d) (Num pp) (Num ep)
        (finiteTaxes cavTax dgegTax iecTax socialTax) in
    let energy := Components.energy (components r) in
    let power := Components.power (components r) in
    let tax := Components.taxes (components r) in
    (Num 0 <=? vat r) = true
    /\ (base r <=? total r) = true
    /\ (Num 0 <=? Part.vat energy) = true
    /\ (Num 0 <=? Part.vat power) = true
    /\ (Num 0 <=? Part.vat tax) = true.
Proof.
  intros c d pp ep cavTax dgegTax iecTax socialTax powerKva
         Hc Hd Hpp Hep Hcav Hdgeg Hiec r energy power tax.
  subst energy power tax r. unfold finiteTaxes.
  assert (0 <= d * pp)%Q by nra.
  assert (0 <= c * ep)%Q by nra.
  calc_cases; close_order.
Qed.

Lemma calculateWithVat_vat_not_negative_witness :
  let r :=
    calculateWithVat (Num 200) (Num 4.6) (Num 30) (Num 0.15) (Num 0.18)
      (finiteTaxes 1.5 0.10 6.0 (-5)) in
  let energy := Components.energy (components r) in
  let power := Components.power (components r) in
  let tax := Components.taxes (components r) in
  (Num 0 <=? vat r) = true
  /\ (base r <=? total r) = true
  /\ (Num 0 <=? Part.vat energy) = true
  /\ (Num 0 <=? Part.vat power) = true
  /\ (Num 0 <=? Part.vat tax) = true.
Proof.
  apply (calculateWithVat_vat_not_negative 200 30 0.15 0.18 1.5 0.10 6.0 (-5) (Num 4.6));
    lra.
Defined.

(** X2.  Cheaper unit prices never give a dearer bill: with non-negative
    consumption and days, the total grows with the power price and with the
    energy price. *)
Theorem calculateWithVat_monotone_prices :
  forall (c d pp ep pp' ep' cavTax dgegTax iecTax socialTax : Q)
         (powerKva : number),
    (0 <= c)%Q -> (0 <= d)%Q -> (pp <= pp')%Q -> (ep <= ep')%Q ->
    (total (calculateWithVat (Num c) powerKva (Num d) (Num pp) (Num ep)
              (finiteTaxes cavTax dgegTax iecTax socialTax))
     <=? total (calculateWithVat (Num c) powerKva (Num d) (Num pp') (Num ep')
                  (finiteTaxes cavTax dgegTax iecTax socialTax)))
    = true.
Proof.
  intros c d pp ep pp' ep' cavTax dgegTax iecTax socialTax powerKva
         Hc Hd Hpp Hep.
  unfold finiteTaxes.
  assert (d * pp <= d * pp')%Q by nra.
  assert (c * ep <= c * ep')%Q by nra.
  calc_cases; close_order.
Qed.

Lemma calculateWithVat_monotone_prices_witness :
  (total (calculateWithVat (Num 200) (Num 4.6) (Num 30) (Num 0.15) (Num 0.16)
            (finiteTaxes 1.5 0.10 6.0 0))
   <=? total (calculateWithVat (Num 200) (Num 4.6) (Num 30) (Num 0.15) (Num 0.18)
                (finiteTaxes 1.5 0.10 6.0 0)))
  = true.
Proof.
  apply (calculateWithVat_monotone_prices 200 30 0.15 0.16 0.15 0.18); lra.
Defined.

(** X3.  More consumption never gives a cheaper bill: with a non-negative energy
    price the total grows with the consumption, across the 100 kWh tier
    limit too. *)
Theorem calculateWithVat_monotone_consumption :
  forall (c c' d pp ep cavTax dgegTax iecTax socialTax : Q) (powerKva : number),
    (c <= c')%Q -> (0 <= ep)%Q ->
    (total (calculateWithVat (Num c) powerKva (Num d) (Num pp) (Num ep)
              (finiteTaxes cavTax dgegTax iecTax socialTax))
     <=? total (calculateWithVat (Num c') powerKva (Num d) (Num pp) (Num ep)
                  (finiteTaxes cavTax dgegTax iecTax socialTax)))
    = true.
Proof.
  intros c c' d pp ep cavTax dgegTax iecTax socialTax powerKva Hc Hep.
  unfold finiteTaxes.
  assert (0 <= (c' - c) * ep)%Q by nra.
  calc_cases; close_order.
Qed.

Lemma calculateWithVat_monotone_consumption_witness :
  (total (calculateWithVat (Num 90) (Num 4.6) (Num 30) (Num 0.15) (Num 0.18)
            (finiteTaxes 1.5 0.10 6.0 0))
   <=? total (calculateWithVat (Num 200) (Num 4.6) (Num 30) (Num 0.15) (Num 0.18)
                (finiteTaxes 1.5 0.10 6.0 0)))
  = true.
Proof.
  apply (calculateWithVat_monotone_consumption 90 200 30 0.15 0.18); lra.
Defined.

(** X4.  The contracted power counts through its bracket only: two powers on the
    same side of 6.9 kVA give the same breakdown, and, with non-negative
    consumption, days and prices, a power above 6.9 kVA never gives a lower
    total than one of at most 6.9 kVA. *)
Theorem calculateWithVat_power_bracket :
  forall (c d pp ep cavTax dgegTax iecTax socialTax : Q) (low high : number),
    (low <=? Num 6.9) = true ->
    (Num 6.9 <? high) = true ->
    (forall other,
        (other <=? Num 6.9) = true ->
        calculateWithVat (Num c) other (Num d) (Num pp) (Num ep)
          (finiteTaxes cavTax dgegTax iecTax socialTax)
        = calculateWithVat (Num c) low (Num d) (Num pp) (Num ep)
            (finiteTaxes cavTax dgegTax iecTax socialTax))
    /\ (forall other,
           (Num 6.9 <? other) = true ->
           calculateWithVat (Num c) other (Num d) (Num pp) (Num ep)
             (finiteTaxes cavTax dgegTax iecTax socialTax)
           = calculateWithVat (Num c) high (Num d) (Num pp) (Num ep)
               (finiteTaxes cavTax dgegTax iecTax socialTax))
    /\ ((0 <= c)%Q -> (0 <= d)%Q -> (0 <= pp)%Q -> (0 <= ep)%Q ->
        (total (calculateWithVat (Num c) low (Num d) (Num pp) (Num ep)
                  (finiteTaxes cavTax dgegTax iecTax socialTax))
         <=? total (calculateWithVat (Num c) high (Num d) (Num pp) (Num ep)
                      (finiteTaxes cavTax dgegTax iecTax socialTax)))
        = true).
Proof.
  intros c d pp ep cavTax dgegTax iecTax socialTax low high Hlow Hhigh.
  pose proof (ltb_leb_false _ _ Hhigh) as Hhigh'.
  repeat split.
  - intros other Hother. unfold calculateWithVat, powerVatRate.
    now rewrite Hother, Hlow.
  - intros other Hother. apply ltb_leb_false in Hother.
    unfold calculateWithVat, powerVatRate. now rewrite Hother, Hhigh'.
  - intros Hc Hd Hpp Hep.
    assert (0 <= d * pp)%Q by nra.
    assert (0 <= c * ep)%Q by nra.
    unfold calculateWithVat, powerVatRate. rewrite Hlow, Hhigh'.
    unfold finiteTaxes. calc_cases; close_order.
Qed.

Lemma calculateWithVat_power_bracket_witness :
  (total (calculateWithVat (Num 200) (Num 6.9) (Num 30) (Num 0.15) (Num 0.18)
            (finiteTaxes 1.5 0.10 6.0 0))
   <=? total (calculateWithVat (Num 200) (Num 10.35) (Num 30) (Num 0.15) (Num 0.18)
                (finiteTaxes 1.5 0.10 6.0 0)))
  = true.
Proof.
  apply (calculateWithVat_power_bracket 200 30 0.15 0.18 1.5 0.10 6.0 0
           (Num 6.9) (Num 10.35)); try reflexivity; lra.
Defined.

(** ** Savings and their sign *)



(** The factor [365 / d] of the extrapolation over [d > 0] days is a finite
    number that is not negative. *)
Lemma yearly_factor (d : number) :
  (Num 0 <? d) = true -> exists k, Num 365 / d = Num k /\ (0 <= k)%Q.
Proof.
  destruct d as [d| | |]; try discriminate; intros Hd.
  - apply ltb_Num in Hd. exists (365 / d)%Q. cbn [JS.div].
    destruct (Qeq_bool d 0) eqn:E; [apply Qeq_bool_iff in E; lra|].
    split; [reflexivity|].
    apply Qlt_le_weak. unfold Qdiv.
    apply Qmult_lt_0_compat; [lra|]. now apply Qinv_lt_0_compat.
  - exists 0%Q. split; [reflexivity | lra].
Qed.

(** The sign of a product with a factor that is not negative is never the
    opposite of the sign of the other factor. *)
Lemma mul_sign (x : number) (k : Q) :
  (0 <= k)%Q ->
  ((Num 0 <? x * Num k) = true -> (Num 0 <? x) = true)
  /\ ((x * Num k <? Num 0) = true -> (x <? Num 0) = true).
Proof.
  intros Hk. destruct x as [x| | |]; cbn [JS.mul].
  - split; intros H; order_facts.
    + apply ltb_Num. destruct (Qlt_le_dec 0 x); [assumption | exfalso; nra].
    + apply ltb_Num. destruct (Qlt_le_dec x 0); [assumption | exfalso; nra].
  - split; [reflexivity|]. unfold JS.signed_infinity.
    destruct (k ?= 0) eqn:C; try discriminate.
    apply Qlt_alt in C. lra.
  - split; [|reflexivity]. unfold JS.signed_infinity.
    destruct (k ?= 0) eqn:C; try discriminate.
    apply Qlt_alt in C. lra.
  - split; discriminate.
Qed.

(** The sign of a difference tells which side is the larger. *)
Lemma sub_sign (a b : number) :
  ((Num 0 <? a - b) = true -> (b <? a) = true)
  /\ ((a - b <? Num 0) = true -> (b <? a) = false).
Proof.
  destruct a as [a| | |], b as [b| | |];
    cbn [JS.sub JS.neg JS.add]; try (cbn [JS.ltb]; split; congruence).
  split; intros H; order_facts.
  - apply ltb_Num. lra.
  - apply ltb_Num_false. lra.
Qed.

(** The extrapolation of a difference [a - b] over [d > 0] days is above
    zero only when [b < a], and below zero only when not. *)
Lemma savings_sign (a b d : number) :
  (Num 0 <? d) = true ->
  ((Num 0 <? (a - b) * (Num 365 / d)) = true -> (b <? a) = true)
  /\ (((a - b) * (Num 365 / d) <? Num 0) = true -> (b <? a) = false).
Proof.
  intros Hd. destruct (yearly_factor d Hd) as (k & -> & Hk).
  destruct (mul_sign (a - b) k Hk) as [Hpos Hneg].
  destruct (sub_sign a b) as [Hpos' Hneg'].
  split; auto.
Qed.

Lemma comparison_Some (billData : BillData) (newOffer : NewOfferData)
    (r : ComparisonResult) :
  comparison billData newOffer = Some r ->
  (monthlyConsumptionKwh billData === Num 0) = false
  /\ currentTotal r = total (currentCalculated billData)
  /\ newTotal r
     = total (calculateWithVat
                (monthlyConsumptionKwh billData) (contractedPowerKva billData)
                (billingPeriodDays billData) (powerPricePerDay newOffer)
                (energyPricePerKwh newOffer) (billTaxes billData))
  /\ difference r = currentTotal r - newTotal r
  /\ yearlySavings r = difference r * (Num 365 / billingPeriodDays billData)
  /\ isCheaper r = (newTotal r <? currentTotal r).
Proof.
  unfold comparison.
  destruct (monthlyConsumptionKwh billData === Num 0); [discriminate|].
  intros [= <-]. repeat split.
Qed.

(** ** Rows of the ranking *)

Lemma multiComparisonResults_Forall
    (billData : BillData) (multiSimulations : list SavedSimulation.t)
    (P : Ranked.t -> Prop) :
  (forall i sim,
      nth_error multiSimulations i = Some sim ->
      (monthlyConsumptionKwh billData === Num 0) = false ->
      P (rankOne billData sim i)) ->
  Forall P (multiComparisonResults billData multiSimulations).
Proof.
  intros H. unfold multiComparisonResults.
  destruct (monthlyConsumptionKwh billData === Num 0) eqn:Hc; [constructor|].
  cbn [orb]. destruct (List.length multiSimulations =? 0)%nat; [constructor|].
  rewrite (Array_sort_perm byCalculatedTotal).
  apply Array_map_from_Forall. intros i sim Hi. now apply H.
Qed.












(** X10.  Viewing a row of the ranking in the main view
    ([loadSimulationToMain]) changes the offer only (the bill, the saved
    simulations, the status and the error message stay), and the comparison
    then shown has the total, the yearly savings and the cheaper flag of
    that row. *)
Theorem loadSimulationToMain_agrees :
  forall (app : AppState) (multiSimulations : list SavedSimulation.t),
    Forall
      (fun row =>
         let app' := loadSimulationToMain row app in
         stBillData app' = stBillData app
         /\ stMultiSimulations app' = stMultiSimulations app
         /\ stStatus app' = stStatus app
         /\ stErrorMsg app' = stErrorMsg app
         /\ exists r,
             comparison (stBillData app') (stNewOffer app') = Some r
             /\ newTotal r = Ranked.calculatedTotal row
             /\ yearlySavings r = Ranked.yearlySavings row
             /\ isCheaper r = Ranked.isCheaper row)
      (multiComparisonResults (stBillData app) multiSimulations).
Proof.
  intros app multiSimulations.
  apply multiComparisonResults_Forall. intros i sim Hi Hc.
  cbn [loadSimulationToMain stBillData stNewOffer stMultiSimulations stStatus
       stErrorMsg].
  repeat split. unfold comparison. rewrite Hc.
  eexists. split; [reflexivity|]. repeat split.
Qed.


(** X7.  The sign of the yearly savings never contradicts the cheaper flag.
    On a billing period of more than 0 days, whatever the other numbers, a
    row of the ranking with yearly savings above zero is flagged cheaper and
    a row with yearly savings below zero is not; the same holds of the
    single comparison. *)
Theorem ranking_savings_sign :
  forall (billData : BillData) (multiSimulations : list SavedSimulation.t),
    (Num 0 <? billingPeriodDays billData) = true ->
    Forall
      (fun row =>
         ((Num 0 <? Ranked.yearlySavings row) = true -> Ranked.isCheaper row = true)
         /\ ((Ranked.yearlySavings row <? Num 0) = true
             -> Ranked.isCheaper row = false))
      (multiComparisonResults billData multiSimulations)
    /\ forall newOffer r,
        comparison billData newOffer = Some r ->
        ((Num 0 <? yearlySavings r) = true -> isCheaper r = true)
        /\ ((yearlySavings r <? Num 0) = true -> isCheaper r = false).
Proof.
  intros billData multiSimulations Hdays. split.
  - apply multiComparisonResults_Forall. intros i sim Hi _.
    cbn [rankOne Ranked.yearlySavings Ranked.isCheaper].
    now apply savings_sign.
  - intros newOffer r Hr.
    destruct (comparison_Some _ _ _ Hr) as (_ & Hcur & Hnew & Hdiff & Hyear & Hcheaper).
    rewrite Hyear, Hcheaper, Hdiff.
    now apply savings_sign.
Qed.

Lemma ranking_savings_sign_witness :
  Forall
    (fun row =>
       ((Num 0 <? Ranked.yearlySavings row) = true -> Ranked.isCheaper row = true)
       /\ ((Ranked.yearlySavings row <? Num 0) = true -> Ranked.isCheaper row = false))
    (multiComparisonResults exampleBill unpricedSimulations)
  /\ forall newOffer r,
      comparison exampleBill newOffer = Some r ->
      ((Num 0 <? yearlySavings r) = true -> isCheaper r = true)
      /\ ((yearlySavings r <? Num 0) = true -> isCheaper r = false).
Proof.
  apply (ranking_savings_sign exampleBill unpricedSimulations). reflexivity.
Defined.

(** ** Removing a saved simulation *)



Section SortFilter.

Context {A : Type} (compareFn : A -> A -> number).
Context (key : A -> Q) (ok : A -> Prop).

Hypothesis compareFn_key :
  forall a b, ok a -> ok b ->
    ((compareFn a b <? Num 0) = true <-> (key a < key b)%Q).







End SortFilter.





(** ** More on the batch loader *)

Lemma lookup_assign_same (key : string) (v : json) (properties : list (string * json)) :
  lookup key (assign key v properties) = Some v.
Proof.
  induction properties as [|[k old] rest IH]; simpl.
  - now rewrite String.eqb_refl.
  - destruct (String.eqb k key) eqn:E; simpl; now rewrite E.
Qed.

Lemma lookup_assign_other (key other : string) (v : json)
    (properties : list (string * json)) :
  other <> key ->
  lookup other (assign key v properties) = lookup other properties.
Proof.
  intros Hne. induction properties as [|[k old] rest IH]; simpl.
  - destruct (String.eqb key other) eqn:E; [|reflexivity].
    apply String.eqb_eq in E. congruence.
  - destruct (String.eqb k key) eqn:E; simpl.
    + apply String.eqb_eq in E. subst k.
      destruct (String.eqb key other) eqn:E'; [|reflexivity].
      apply String.eqb_eq in E'. congruence.
    + now rewrite IH.
Qed.

Lemma pushed_app (events events' : list LoadEvent) :
  pushed (events ++ events') = pushed events ++ pushed events'.
Proof. apply flat_map_app. Qed.

(** X12.  Two batches or one.  When every read ends with [onload], two
    batches loaded one after the other give the collection that one batch
    of all their files gives.  When a read of the first batch fails and
    none of the second, the two batches add the documents of the second,
    and the one batch of all the files adds nothing.  A batch adds at most
    one document per file. *)
Theorem handleAddMultiSimulations_batches :
  forall (first second : list FileRead) (app : AppState),
    let separately :=
      handleAddMultiSimulationsOf second (handleAddMultiSimulationsOf first app) in
    let together := handleAddMultiSimulationsOf (first ++ second) app in
    (~ In ReadFails first -> ~ In ReadFails second -> separately = together)
    /\ (In ReadFails first -> ~ In ReadFails second ->
        together = app
        /\ separately = setMultiSimulations (pushed (loadEvents second)) app)
    /\ (List.length (stMultiSimulations (handleAddMultiSimulationsOf first app))
        <= List.length (stMultiSimulations app) + List.length first)%nat.
Proof.
  intros first second app separately together. subst separately together.
  split; [|split].
  - intros Hfirst Hsecond.
    rewrite !handleAddMultiSimulationsOf_complete; try assumption.
    + unfold setMultiSimulations. cbn.
      now rewrite loadEvents_app, pushed_app, app_assoc.
    + rewrite in_app_iff. tauto.
  - intros Hfirst Hsecond. split.
    + apply handleAddMultiSimulationsOf_failed. rewrite in_app_iff. now left.
    + rewrite (handleAddMultiSimulationsOf_failed first) by exact Hfirst.
      now apply handleAddMultiSimulationsOf_complete.
  - destruct (ReadFails_dec first) as [H|H].
    + rewrite handleAddMultiSimulationsOf_failed by exact H. lia.
    + rewrite handleAddMultiSimulationsOf_complete by exact H. cbn.
      rewrite length_app.
      pose proof (pushed_length (loadEvents first)).
      pose proof (loadEvents_length first). lia.
Qed.

Lemma handleAddMultiSimulations_batches_witness :
  let first := [Loads (at_noon (Parses offerOnly)); ReadFails] in
  let second := [Loads (at_noon (Parses offerOnly))] in
  stMultiSimulations (handleAddMultiSimulationsOf (first ++ second) initialState) = []
  /\ stMultiSimulations
       (handleAddMultiSimulationsOf second
          (handleAddMultiSimulationsOf first initialState))
     = [setProperty offerOnly "timestamp" (JString "2025-06-01T12:00:00.000Z")].
Proof.
  intros first second.
  destruct (handleAddMultiSimulations_batches first second initialState)
    as (_ & Hfailed & _).
  destruct Hfailed as [Htogether Hseparately].
  - cbn. auto.
  - cbn. intros [H|[]]. discriminate.
  - rewrite Htogether, Hseparately. split; reflexivity.
Defined.

(** X13.  The order in which the reads of a batch complete changes the
    order of the added documents and nothing else: the two collections are
    permutations of each other and both start with the previous one. *)
Theorem handleAddMultiSimulations_completion_order :
  forall (events events' : list LoadEvent) (app : AppState),
    Permutation events events' ->
    let one := handleAddMultiSimulations events app in
    let other := handleAddMultiSimulations events' app in
    Permutation (stMultiSimulations one) (stMultiSimulations other)
    /\ firstn (List.length (stMultiSimulations app)) (stMultiSimulations one)
       = stMultiSimulations app
    /\ firstn (List.length (stMultiSimulations app)) (stMultiSimulations other)
       = stMultiSimulations app.
Proof.
  intros events events' app Hperm one other. subst one other.
  rewrite !handleAddMultiSimulations_pushed. cbn. repeat split.
  - apply Permutation_app_head. unfold pushed. now apply Permutation_flat_map.
  - now rewrite firstn_app, Nat.sub_diag, firstn_all, firstn_O, app_nil_r.
  - now rewrite firstn_app, Nat.sub_diag, firstn_all, firstn_O, app_nil_r.
Qed.

Lemma handleAddMultiSimulations_completion_order_witness :
  let one :=
    handleAddMultiSimulations [at_noon (Parses offerOnly); at_noon Malformed]
      initialState in
  let other :=
    handleAddMultiSimulations [at_noon Malformed; at_noon (Parses offerOnly)]
      initialState in
  Permutation (stMultiSimulations one) (stMultiSimulations other)
  /\ firstn (List.length (stMultiSimulations initialState)) (stMultiSimulations one)
     = stMultiSimulations initialState
  /\ firstn (List.length (stMultiSimulations initialState)) (stMultiSimulations other)
     = stMultiSimulations initialState.
Proof.
  apply (handleAddMultiSimulations_completion_order
           [at_noon (Parses offerOnly); at_noon Malformed]
           [at_noon Malformed; at_noon (Parses offerOnly)] initialState).
  apply perm_swap.
Defined.


(** X14.  Every document the loader adds is an object with a truthy
    [newOffer] and a truthy [timestamp] (the clock's text is never empty),
    so a collection of such documents stays one. *)
Theorem handleAddMultiSimulations_stamped :
  forall (events : list LoadEvent) (app : AppState),
    Forall (fun event => now event <> EmptyString) events ->
    Forall stampedOffer (stMultiSimulations app) ->
    Forall stampedOffer (stMultiSimulations (handleAddMultiSimulations events app)).
Proof.
  intros events app Hnow Hprev.
  rewrite handleAddMultiSimulations_pushed. cbn.
  apply Forall_app. split; [exact Hprev|].
  unfold pushed. apply Forall_flat_map.
  rewrite Forall_forall in *. intros event Hevent.
  destruct (accepted event) as [value|] eqn:E; [|constructor].
  constructor; [|constructor].
  apply accepted_iff in E. destruct E as (properties & _ & Hoffer & ->).
  destruct (truthy (lookup "timestamp" properties)) eqn:Hstamp.
  - now exists properties.
  - eexists. split; [reflexivity|]. split.
    + rewrite lookup_assign_other by discriminate. exact Hoffer.
    + rewrite lookup_assign_same. cbn.
      apply negb_true_iff, String.eqb_neq. now apply Hnow.
Qed.

Lemma handleAddMultiSimulations_stamped_witness :
  Forall stampedOffer
    (stMultiSimulations
       (handleAddMultiSimulations
          [at_noon Malformed; at_noon (Parses offerOnly); at_noon (Parses nullOffer)]
          initialState)).
Proof.
  apply (handleAddMultiSimulations_stamped
           [at_noon Malformed; at_noon (Parses offerOnly); at_noon (Parses nullOffer)]
           initialState).
  - repeat constructor; discriminate.
  - constructor.
Defined.


(** ** Manual entry *)

Lemma or_else_not_NaN (x : option number) : JS.or_else x (Num 0) <> NaN.
Proof.
  destruct x as [[q| | |]|]; simpl; try discriminate.
  destruct (negb (Qeq_bool q 0)); discriminate.
Qed.

Lemma handleBillChange_enteredByHand (parseFloat : string -> number)
    (field : BillField) (value : string) (app : AppState) :
  hasInput field = true ->
  enteredByHand (stBillData app) ->
  enteredByHand (stBillData (handleBillChange parseFloat field value app))
  /\ stNewOffer (handleBillChange parseFloat field value app) = stNewOffer app.
Proof.
  intros Hfield (Hdays & Htotal & Hc & Hp & Hcav & Hdgeg & Hiec & Hsocial & Hpp & Hep).
  split; [|reflexivity].
  unfold handleBillChange, enteredByHand.
  pose proof (or_else_not_NaN (Some (parseFloat value))) as Hvalue.
  set (numValue := JS.or_else (Some (parseFloat value)) (Num 0)) in *.
  destruct field; try discriminate;
    cbn [setBillData setBillField stBillData
         monthlyConsumptionKwh contractedPowerKva audiovisualTax dgegTax ieceTax
         socialTariff totalAmount billingPeriodDays currentPowerPricePerDay
         currentEnergyPricePerKwh];
    repeat split; try assumption; congruence.
Qed.

Lemma handleOfferChange_pricedOffer (parseFloat : string -> number)
    (field : OfferField) (value : string) (app : AppState) :
  pricedOffer (stNewOffer app) ->
  pricedOffer (stNewOffer (handleOfferChange parseFloat field value app))
  /\ stBillData (handleOfferChange parseFloat field value app) = stBillData app.
Proof.
  intros [Hpower Henergy]. split; [|now destruct field].
  pose proof (or_else_not_NaN (Some (parseFloat value))) as Hvalue.
  unfold pricedOffer.
  destruct field;
    cbn [handleOfferChange setNewOffer stNewOffer powerPricePerDay energyPricePerKwh];
    split; assumption.
Qed.

Lemma onChanges_enteredByHand (parseFloat : string -> number) (events : list FormEvent) :
  forall app : AppState,
    forallb fromForms events = true ->
    enteredByHand (stBillData app) ->
    enteredByHand (stBillData (onChanges parseFloat events app))
    /\ (pricedOffer (stNewOffer app)
        -> pricedOffer (stNewOffer (onChanges parseFloat events app))).
Proof.
  unfold onChanges.
  induction events as [|event rest IH]; intros app Hevents Hbill; [now split|].
  cbn [forallb] in Hevents. apply andb_true_iff in Hevents.
  destruct Hevents as [Hevent Hrest].
  cbn [fold_left].
  destruct event as [field value | field value]; cbn [onChange fromForms] in *.
  - destruct (handleBillChange_enteredByHand parseFloat field value app Hevent Hbill)
      as [Hbill' Hoffer'].
    destruct (IH _ Hrest Hbill') as [H1 H2]. split; [exact H1|].
    intros Hoffer. apply H2. now rewrite Hoffer'.
  - assert (Hbill' : enteredByHand
                       (stBillData (handleOfferChange parseFloat field value app))).
    { now destruct field. }
    destruct (IH _ Hrest Hbill') as [H1 H2]. split; [exact H1|].
    intros Hoffer. apply H2.
    now apply handleOfferChange_pricedOffer.
Qed.

(** X15.  Manual entry cannot bring in the zero-days hazard.  After a confirmed
    reset, or after the file is cleared, whatever is typed in the inputs of
    the two forms and however [parseFloat] reads it, the billing period is
    still the initial 30 days and the total amount the initial 0, no number
    of the bill is [NaN] (a text that is not a number is stored as 0), and
    the yearly savings of a comparison are its difference times 365 / 30.
    After a reset no price of the offer is [NaN] either; after the file is
    cleared, none is if none was. *)
Theorem manual_entry_keeps_billing_period :
  forall (parseFloat : string -> number) (events : list FormEvent)
         (screen : Screen),
    forallb fromForms events = true ->
    let afterReset := onChanges parseFloat events (state (handleReset true screen)) in
    let afterClear := onChanges parseFloat events (state (handleClearFile screen)) in
    enteredByHand (stBillData afterReset)
    /\ pricedOffer (stNewOffer afterReset)
    /\ enteredByHand (stBillData afterClear)
    /\ (pricedOffer (stNewOffer (state screen)) -> pricedOffer (stNewOffer afterClear))
    /\ (forall r,
           comparison (stBillData afterReset) (stNewOffer afterReset) = Some r ->
           yearlySavings r = difference r * (Num 365 / Num 30))
    /\ (forall r,
           comparison (stBillData afterClear) (stNewOffer afterClear) = Some r ->
           yearlySavings r = difference r * (Num 365 / Num 30)).
Proof.
  intros parseFloat events screen Hevents afterReset afterClear.
  assert (Hinitial : enteredByHand getInitialBillData).
  { unfold enteredByHand. cbn. repeat split; discriminate. }
  destruct (onChanges_enteredByHand parseFloat events
              (state (handleReset true screen)) Hevents Hinitial) as [Hreset Hoffer].
  destruct (onChanges_enteredByHand parseFloat events
              (state (handleClearFile screen)) Hevents Hinitial) as [Hclear Hoffer'].
  fold afterReset in Hreset, Hoffer. fold afterClear in Hclear, Hoffer'.
  assert (Hyear : forall app r,
             enteredByHand (stBillData app) ->
             comparison (stBillData app) (stNewOffer app) = Some r ->
             yearlySavings r = difference r * (Num 365 / Num 30)).
  { intros app r (Hdays & _) Hr.
    destruct (comparison_Some _ _ _ Hr) as (_ & _ & _ & _ & Hy & _).
    now rewrite Hy, Hdays. }
  split; [exact Hreset|].
  split; [apply Hoffer; split; discriminate|].
  split; [exact Hclear|].
  split; [exact Hoffer'|].
  split; intros r Hr; [now apply (Hyear afterReset) | now apply (Hyear afterClear)].
Qed.

Lemma manual_entry_keeps_billing_period_witness :
  let afterReset :=
    onChanges exampleParseFloat exampleInputs (state (handleReset true exampleScreen)) in
  let afterClear :=
    onChanges exampleParseFloat exampleInputs (state (handleClearFile exampleScreen)) in
  enteredByHand (stBillData afterReset)
  /\ pricedOffer (stNewOffer afterReset)
  /\ enteredByHand (stBillData afterClear)
  /\ (pricedOffer (stNewOffer (state exampleScreen))
      -> pricedOffer (stNewOffer afterClear))
  /\ (forall r,
         comparison (stBillData afterReset) (stNewOffer afterReset) = Some r ->
         yearlySavings r = difference r * (Num 365 / Num 30))
  /\ (forall r,
         comparison (stBillData afterClear) (stNewOffer afterClear) = Some r ->
         yearlySavings r = difference r * (Num 365 / Num 30)).
Proof.
  apply (manual_entry_keeps_billing_period exampleParseFloat exampleInputs
           exampleScreen).
  reflexivity.
Defined.

(** What the example inputs leave after a reset: 250 kWh, an audiovisual
    tax of 0 for the text that is no number, 30 days. *)
Example manual_entry_example :
  let afterReset :=
    onChanges exampleParseFloat exampleInputs (state (handleReset true exampleScreen)) in
  billingPeriodDays (stBillData afterReset) = Num 30
  /\ monthlyConsumptionKwh (stBillData afterReset) = Num 250
  /\ audiovisualTax (stBillData afterReset) = Num 0
  /\ energyPricePerKwh (stNewOffer afterReset) = Num 0.17.
Proof. repeat split. Qed.

(** ** Uploads *)

Lemma messageOr_not_empty (message : option string) (fallback : string) :
  fallback <> EmptyString -> messageOr message fallback <> EmptyString.
Proof.
  intros Hfallback. destruct message as [text|]; simpl; [|exact Hfallback].
  destruct (String.eqb text EmptyString) eqn:E; [exact Hfallback|].
  now apply String.eqb_neq.
Qed.

(** X16.  However an upload settles, the saved simulations are left as
    they were, and either the status is SUCCESS with no error message, or
    it is ERROR with a message that is not empty and with the bill and the
    offer left as they were. *)
Theorem handleFileSelect_settles :
  forall (decode : string -> Decoded)
         (extractBillData : string -> string -> Extraction)
         (base64 mimeType : string) (screen : Screen),
    let after := state (handleFileSelect decode extractBillData base64 mimeType screen) in
    stMultiSimulations after = stMultiSimulations (state screen)
    /\ ((stStatus after = SUCCESS /\ stErrorMsg after = None)
        \/ (stStatus after = ERROR
            /\ (exists message,
                   stErrorMsg after = Some message /\ message <> EmptyString)
            /\ stBillData after = stBillData (state screen)
            /\ stNewOffer after = stNewOffer (state screen))).
Proof.
  intros decode extractBillData base64 mimeType screen after. subst after.
  unfold handleFileSelect.
  destruct (isSimulationImport base64 mimeType).
  - destruct (decode base64) as [|[billData|] [newOffer|]]; cbn;
      (split; [reflexivity|]);
      first [ left; split; reflexivity
            | right; repeat split; eexists; split; [reflexivity | discriminate] ].
  - destruct (extractBillData base64 mimeType) as [data|message]; cbn;
      (split; [reflexivity|]); [left; split; reflexivity|].
    right. repeat split. eexists. split; [reflexivity|].
    apply messageOr_not_empty. discriminate.
Qed.

(** X17.  A file of type application/json, or whose base64 text starts
    with "ew", is read as a saved simulation and never sent to the
    extraction service; it succeeds exactly when the document has both a
    bill and an offer, which then replace the current ones. *)
Theorem handleFileSelect_import :
  forall (decode : string -> Decoded)
         (extractBillData extractBillData' : string -> string -> Extraction)
         (base64 mimeType : string) (screen : Screen),
    isSimulationImport base64 mimeType = true ->
    let after := handleFileSelect decode extractBillData base64 mimeType screen in
    after = handleFileSelect decode extractBillData' base64 mimeType screen
    /\ (stStatus (state after) = SUCCESS
        <-> exists billData newOffer,
            decode base64 = Document (Some billData) (Some newOffer)
            /\ stBillData (state after) = billData
            /\ stNewOffer (state after) = newOffer).
Proof.
  intros decode extractBillData extractBillData' base64 mimeType screen Himport after.
  subst after. unfold handleFileSelect. rewrite Himport. split; [reflexivity|].
  destruct (decode base64) as [|[billData|] [newOffer|]]; cbn; split;
    try discriminate;
    try (intros (b & o & H & _); discriminate).
  - intros _. now exists billData, newOffer.
  - reflexivity.
Qed.

Lemma handleFileSelect_import_witness :
  let after :=
    handleFileSelect exampleDecode exampleExtract "ewB" "application/pdf"
      exampleScreen in
  after
  = handleFileSelect exampleDecode (fun _ _ => Rejected None) "ewB" "application/pdf"
      exampleScreen
  /\ (stStatus (state after) = SUCCESS
      <-> exists billData newOffer,
          exampleDecode "ewB" = Document (Some billData) (Some newOffer)
          /\ stBillData (state after) = billData
          /\ stNewOffer (state after) = newOffer).
Proof.
  apply (handleFileSelect_import exampleDecode exampleExtract
           (fun _ _ => Rejected None) "ewB" "application/pdf" exampleScreen).
  reflexivity.
Defined.

(** X18.  Nothing checks the billing period of an uploaded bill.  An imported
    simulation, or an extracted bill, with a billing period of 0 days and a
    consumption other than 0 is taken with status SUCCESS, and the yearly
    savings of the comparison that follows are not a finite number. *)
Theorem handleFileSelect_zero_days :
  forall (decode : string -> Decoded)
         (extractBillData : string -> string -> Extraction)
         (base64 mimeType : string) (screen : Screen)
         (billData : BillData) (newOffer : NewOfferData),
    billingPeriodDays billData =~ Num 0 ->
    ~ monthlyConsumptionKwh billData =~ Num 0 ->
    (isSimulationImport base64 mimeType = true
     /\ decode base64 = Document (Some billData) (Some newOffer))
    \/ (isSimulationImport base64 mimeType = false
        /\ extractBillData base64 mimeType = Extracted billData
        /\ newOffer = stNewOffer (state screen)) ->
    let after := state (handleFileSelect decode extractBillData base64 mimeType screen) in
    stStatus after = SUCCESS
    /\ stBillData after = billData
    /\ stNewOffer after = newOffer
    /\ exists r,
        comparison (stBillData after) (stNewOffer after) = Some r
        /\ JS.isFinite (yearlySavings r) = false.
Proof.
  intros decode extractBillData base64 mimeType screen billData newOffer
         Hdays Hconsumption Hpath after.
  assert (Hafter : stStatus after = SUCCESS /\ stBillData after = billData
                   /\ stNewOffer after = newOffer).
  { subst after. unfold handleFileSelect.
    destruct Hpath as [[-> ->] | (-> & -> & ->)]; repeat split. }
  destruct Hafter as (Hstatus & -> & ->). repeat split; [exact Hstatus|].
  rewrite <- strict_eq_zero in Hconsumption.
  apply not_true_is_false in Hconsumption.
  unfold comparison. rewrite Hconsumption. eexists. split; [reflexivity|].
  cbn [yearlySavings]. rewrite (div_by_zero _ Hdays).
  apply mul_Infinity_not_finite.
Qed.

Lemma handleFileSelect_zero_days_witness :
  let after :=
    state (handleFileSelect exampleDecode exampleExtract "JVBE" "application/pdf"
             exampleScreen) in
  stStatus after = SUCCESS
  /\ stBillData after = zeroDaysBill
  /\ stNewOffer after = getInitialOfferData
  /\ exists r,
      comparison (stBillData after) (stNewOffer after) = Some r
      /\ JS.isFinite (yearlySavings r) = false.
Proof.
  apply (handleFileSelect_zero_days exampleDecode exampleExtract "JVBE"
           "application/pdf" exampleScreen zeroDaysBill getInitialOfferData).
  - reflexivity.
  - simpl. unfold Qeq. simpl. discriminate.
  - right. repeat split.
Defined.



(** ** File names *)

Lemma noneOf_append (p : ascii -> bool) (s t : string) :
  noneOf p (s ++ t) = noneOf p s && noneOf p t.
Proof.
  induction s as [|c rest IH]; simpl; [reflexivity|].
  now rewrite IH, andb_assoc.
Qed.

Lemma replaceWhiteSpace_none (inRun : bool) (text : string) :
  noneOf isWhiteSpace (replaceWhiteSpace inRun text) = true.
Proof.
  revert inRun. induction text as [|c rest IH]; intros inRun; simpl; [reflexivity|].
  destruct (isWhiteSpace c) eqn:E.
  - destruct inRun; simpl; now rewrite ?IH.
  - simpl. now rewrite E, IH.
Qed.

Lemma replaceWhiteSpace_id (inRun : bool) (text : string) :
  noneOf isWhiteSpace text = true -> replaceWhiteSpace inRun text = text.
Proof.
  revert inRun. induction text as [|c rest IH]; intros inRun; simpl; [reflexivity|].
  intros [Hc Hrest]%andb_true_iff. apply negb_true_iff in Hc.
  now rewrite Hc, IH.
Qed.

Lemma replaceColonT_none (p : ascii -> bool) (text : string) :
  p "_"%char = false -> noneOf p text = true ->
  noneOf p (replaceColonT text) = true.
Proof.
  intros Hp. induction text as [|c rest IH]; simpl; [reflexivity|].
  intros [Hc Hrest]%andb_true_iff.
  rewrite (IH Hrest), andb_true_r.
  destruct (Ascii.eqb c ":" || Ascii.eqb c "T")%bool; [now rewrite Hp | exact Hc].
Qed.

Lemma replaceColonT_clean (text : string) :
  noneOf (fun c => Ascii.eqb c ":" || Ascii.eqb c "T")%bool (replaceColonT text) = true.
Proof.
  induction text as [|c rest IH]; simpl; [reflexivity|].
  rewrite IH, andb_true_r.
  destruct (Ascii.eqb c ":" || Ascii.eqb c "T")%bool eqn:E; [reflexivity|].
  now rewrite E.
Qed.

Lemma substring_none (p : ascii -> bool) (text : string) :
  noneOf p text = true ->
  forall n m, noneOf p (String.substring n m text) = true.
Proof.
  induction text as [|c rest IH]; intros H n m.
  - now destruct n, m.
  - simpl in H. apply andb_true_iff in H. destruct H as [Hc Hrest].
    destruct n as [|n]; destruct m as [|m]; simpl; auto.
    now rewrite Hc, IH.
Qed.

Lemma supplierSlug_none (newOffer : NewOfferData) (fallback : string) :
  noneOf isWhiteSpace fallback = true ->
  noneOf isWhiteSpace (supplierSlug newOffer fallback) = true.
Proof.
  intros Hfallback. unfold supplierSlug.
  destruct (supplierName newOffer) as [name|]; [|exact Hfallback].
  destruct (String.eqb name EmptyString); [exact Hfallback|].
  apply replaceWhiteSpace_none.
Qed.

(** X19.  The names of the downloaded files.  For a clock text without
    white space, neither file name contains white space, whatever the
    supplier name; the time stamp in them has no colon and no T; the
    supplier part is never empty, and a supplier name without white space
    is taken as it is. *)
Theorem download_names :
  forall (newOffer : NewOfferData) (iso : string),
    noneOf isWhiteSpace iso = true ->
    noneOf isWhiteSpace (simulationFileName newOffer iso) = true
    /\ noneOf isWhiteSpace (reportFileName newOffer iso) = true
    /\ noneOf (fun c => Ascii.eqb c ":" || Ascii.eqb c "T")%bool (fileTimestamp iso) = true
    /\ (forall fallback,
           fallback <> EmptyString -> supplierSlug newOffer fallback <> EmptyString)
    /\ (forall fallback name,
           supplierName newOffer = Some name ->
           name <> EmptyString ->
           noneOf isWhiteSpace name = true ->
           supplierSlug newOffer fallback = name).
Proof.
  intros newOffer iso Hiso.
  assert (Hstamp : noneOf isWhiteSpace (fileTimestamp iso) = true).
  { unfold fileTimestamp. apply replaceColonT_none; [reflexivity|].
    now apply substring_none. }
  repeat split.
  - unfold simulationFileName. rewrite !noneOf_append.
    rewrite supplierSlug_none, Hstamp by reflexivity. reflexivity.
  - unfold reportFileName. rewrite !noneOf_append.
    rewrite supplierSlug_none, Hstamp by reflexivity. reflexivity.
  - apply replaceColonT_clean.
  - intros fallback Hfallback.
    unfold supplierSlug. destruct (supplierName newOffer) as [name|]; [|assumption].
    destruct (String.eqb name EmptyString) eqn:E; [assumption|].
    apply String.eqb_neq in E. destruct name as [|c rest]; [congruence|].
    simpl. destruct (isWhiteSpace c); discriminate.
  - intros fallback name Hname Hne Hclean. unfold supplierSlug. rewrite Hname.
    apply String.eqb_neq in Hne. rewrite Hne.
    now apply replaceWhiteSpace_id.
Qed.

Lemma download_names_witness :
  noneOf isWhiteSpace
    (simulationFileName (offerAt "Luz  Verde" 0.18) "2025-06-01T12:00:00.000Z")
  = true
  /\ noneOf isWhiteSpace
       (reportFileName (offerAt "Luz  Verde" 0.18) "2025-06-01T12:00:00.000Z")
     = true
  /\ noneOf (fun c => Ascii.eqb c ":" || Ascii.eqb c "T")%bool
       (fileTimestamp "2025-06-01T12:00:00.000Z") = true
  /\ (forall fallback,
         fallback <> EmptyString
         -> supplierSlug (offerAt "Luz  Verde" 0.18) fallback <> EmptyString)
  /\ (forall fallback name,
         supplierName (offerAt "Luz  Verde" 0.18) = Some name ->
         name <> EmptyString ->
         noneOf isWhiteSpace name = true ->
         supplierSlug (offerAt "Luz  Verde" 0.18) fallback = name).
Proof.
  apply (download_names (offerAt "Luz  Verde" 0.18) "2025-06-01T12:00:00.000Z").
  reflexivity.
Defined.

(** The two names for an offer of "Luz  Verde" saved on 1 June 2025 at
    12:00 UTC. *)
Example download_names_example :
  simulationFileName (offerAt "Luz  Verde" 0.18) "2025-06-01T12:00:00.000Z"
  = "Comparativo_Luz_Verde_2025-06-01_12_00.json"%string
  /\ reportFileName (offerAt "Luz  Verde" 0.18) "2025-06-01T12:00:00.000Z"
     = "Relatorio_Luz_Verde_2025-06-01_12_00.txt"%string.
Proof. split; reflexivity. Qed.



(** ** Taxes in the comparison *)

(** X5.  The taxes line of a comparison.  Whenever there is a comparison, its
    taxes line is the same value for the current tariff and for the offer
    (which is why the report prints it once), and that value is made of the
    four taxes of the bill alone: their sum plus the VAT on the first three.
    Neither the consumption, the power, the days nor any price enters it. *)
Theorem comparison_taxes_line :
  forall (billData : BillData) (newOffer : NewOfferData) (r : ComparisonResult),
    comparison billData newOffer = Some r ->
    let line :=
      (audiovisualTax billData + dgegTax billData + ieceTax billData
       + socialTariff billData)
      + (audiovisualTax billData * IVA_LOW + dgegTax billData * IVA_NORMAL
         + ieceTax billData * IVA_NORMAL + Num 0) in
    Pair.current (Details.taxes (details r)) = line
    /\ Pair.new (Details.taxes (details r)) = line.
Proof.
  intros billData newOffer r Hr line. subst line.
  unfold comparison in Hr.
  destruct (monthlyConsumptionKwh billData === Num 0); [discriminate|].
  injection Hr as <-. split; reflexivity.
Qed.

Lemma comparison_taxes_line_witness :
  exists r,
    comparison exampleBill (offerAt "A" 0.18) = Some r
    /\ Pair.current (Details.taxes (details r)) =~ Num 9.093
    /\ Pair.new (Details.taxes (details r)) =~ Num 9.093.
Proof.
  eexists. split; [reflexivity|].
  destruct (comparison_taxes_line exampleBill (offerAt "A" 0.18) _ eq_refl)
    as [Hcurrent Hnew].
  rewrite Hcurrent, Hnew. split; vm_compute; reflexivity.
Defined.

(** ** Rounding

    The values of the worked example as JavaScript computes them. *)

Section Rounding.

Import PrimFloat.
Local Open Scope float_scope.

(** C9, as stated, fails on the code: on the worked example of the
    specification the VAT total is 6.983 and the VAT of the energy, of the
    power and of the taxes add up to 6.9830000000000005, the next binary64
    number, in either grouping; the base and the grand total are the sums
    of their parts there. *)
Lemma calculateWithVat_components_round :
  let r := Binary64.exampleWith 0 in
  let energy := Binary64.Components.energy (Binary64.components r) in
  let power := Binary64.Components.power (Binary64.components r) in
  let tax := Binary64.Components.taxes (Binary64.components r) in
  Binary64.vat r = 6.983
  /\ Binary64.Part.vat energy + Binary64.Part.vat power + Binary64.Part.vat tax
     = 6.9830000000000005
  /\ Binary64.Part.vat energy + (Binary64.Part.vat power + Binary64.Part.vat tax)
     = 6.9830000000000005
  /\ (Binary64.vat r
      =? Binary64.Part.vat energy + Binary64.Part.vat power + Binary64.Part.vat tax)
     = false
  /\ next_up (Binary64.vat r)
     = Binary64.Part.vat energy + Binary64.Part.vat power + Binary64.Part.vat tax
  /\ Binary64.base r
     = Binary64.Part.base energy + Binary64.Part.base power + Binary64.Part.base tax
  /\ Binary64.total r
     = Binary64.Part.total energy + Binary64.Part.total power
       + Binary64.Part.total tax.
Proof. vm_compute. repeat split. Qed.

(** The social tariff on the worked example, in binary64: the base total
    is 48.1 without it and 43.1 with a social tariff of -5, and the VAT
    total is the same. *)
Example calculateWithVat_social_tariff_binary64 :
  Binary64.base (Binary64.exampleWith 0) = 48.1
  /\ Binary64.base (Binary64.exampleWith (-5)) = 43.1
  /\ Binary64.base (Binary64.exampleWith 0) - 5 = 43.1
  /\ Binary64.vat (Binary64.exampleWith (-5)) = Binary64.vat (Binary64.exampleWith 0).
Proof. vm_compute. repeat split. Qed.

End Rounding.
